(** * RoboDanny launcher: a shallow embedding of [launcher.py]

    The launcher is a thin command-line shell around external collaborators
    (the PostgreSQL driver, the table registry of [cogs.utils.db], the
    Discord client, the [data_migrators] module, the file system and the
    terminal).  The commands [initdb], [dropdb] and [convertjson] are
    embedded as programs of a small monad that threads the state of the
    outside world, propagates Python exceptions and records, in program
    order, every call made to a collaborator and every line printed. *)

From Stdlib Require Import String Ascii List Bool Arith ZArith Lia.
From Stdlib Require Import Sorting.Sorted Sorting.Permutation.
Import ListNotations.

Local Open Scope string_scope.
Local Open Scope list_scope.

(** ** Python strings *)

Module pystr.

(** The line feed used in the f-strings of the launcher. *)
Definition nl : string := String (ascii_of_nat 10) "".

(** [s.startswith(p)] *)
Definition startswith (s p : string) : bool := String.prefix p s.

(** [c in s] for a one-character [c]. *)
Fixpoint contains (c : ascii) (s : string) : bool :=
  match s with
  | EmptyString => false
  | String a s' => Ascii.eqb a c || contains c s'
  end.

(** [s.split(c)] for a one-character separator: never empty, the pieces
    hold no separator. *)
Fixpoint split (c : ascii) (s : string) : list string :=
  match s with
  | EmptyString => [EmptyString]
  | String a s' =>
      if Ascii.eqb a c then EmptyString :: split c s'
      else match split c s' with
           | [] => [String a EmptyString]
           | x :: xs => String a x :: xs
           end
  end.

(** [sep.join(l)] *)
Definition join (sep : string) (l : list string) : string := String.concat sep l.

(** [s.lstrip(c)] for a one-character [c]. *)
Fixpoint lstrip (c : ascii) (s : string) : string :=
  match s with
  | EmptyString => EmptyString
  | String a s' => if Ascii.eqb a c then lstrip c s' else s
  end.

(** [s.rfind(c)], counting positions from [i]: the highest index of [c],
    or [-1]. *)
Fixpoint rfind_from (i : Z) (c : ascii) (s : string) : Z :=
  match s with
  | EmptyString => (-1)%Z
  | String a s' =>
      let r := rfind_from (i + 1) c s' in
      if (0 <=? r)%Z then r else if Ascii.eqb a c then i else (-1)%Z
  end.

Definition rfind (s : string) (c : ascii) : Z := rfind_from 0 c s.

(** [s[i:]] and [s[:n]] for indices within range. *)
Definition slice_from (s : string) (i : nat) : string :=
  String.substring i (String.length s - i) s.
Definition slice_to (s : string) (n : nat) : string :=
  String.substring 0 n s.

(** [s[-1]] *)
Fixpoint last_char (s : string) : option ascii :=
  match s with
  | EmptyString => None
  | String a EmptyString => Some a
  | String _ s' => last_char s'
  end.

(** [s.replace(old, new)] for a non-empty [old]: the occurrences are
    found left to right and do not overlap.  [skip] counts the characters
    of a matched occurrence that are still to be passed over. *)
Fixpoint replace_from (skip : nat) (old new s : string) : string :=
  match s with
  | EmptyString => EmptyString
  | String a s' =>
      match skip with
      | S k => replace_from k old new s'
      | O =>
          if String.prefix old s
          then (new ++ replace_from (String.length old - 1) old new s')%string
          else String a (replace_from 0 old new s')
      end
  end.

Definition replace (s old new : string) : string := replace_from 0 old new s.

End pystr.

(** ** Exceptions *)

(** The exceptions the launcher can meet.  [except Exception] catches the
    subclasses of [Exception]; a bare [except:] also catches the
    [BaseException]s outside it (KeyboardInterrupt, SystemExit, a
    cancellation).  An exception raised by a collaborator carries the text
    [traceback.format_exc()] prints for it. *)
Inductive exn : Type :=
| AttributeError (msg : string)
| ValueError (msg : string)
| Abort                          (* click.Abort, a RuntimeError *)
| Error (tb : string)            (* any other subclass of Exception *)
| BaseError (tb : string).       (* a BaseException that is no Exception *)

Definition is_Exception (e : exn) : bool :=
  match e with
  | BaseError _ => false
  | _ => true
  end.

Inductive result (A : Type) : Type :=
| Ok (a : A)
| Raise (e : exn).
Arguments Ok {A} a.
Arguments Raise {A} e.

(** ** pathlib *)

(** [pathlib.PurePosixPath] as far as [dropdb] uses it: the constructor on
    one string, [joinpath], [name], [suffix], [with_suffix], [with_name]
    and [str].  There is no drive on POSIX; [path_root] is [""], ["/"] or
    ["//"] and [path_names] are the components after the root (CPython keeps
    the root as the first element of [_parts]). *)
Module pathlib.

Record PurePath : Type := mkPath { path_root : string; path_names : list string }.

Definition sep : ascii := "/"%char.

(** [_PosixFlavour.splitroot] *)
Definition splitroot (part : string) : string * string :=
  match part with
  | String a _ =>
      if Ascii.eqb a sep then
        let stripped_part := pystr.lstrip sep part in
        if Nat.eqb (String.length part - String.length stripped_part) 2
        then ("//", stripped_part)
        else ("/", stripped_part)
      else ("", part)
  | EmptyString => ("", part)
  end.

Definition keep_name (x : string) : bool :=
  negb (String.eqb x "") && negb (String.eqb x ".").

(** [_PosixFlavour.parse_parts] on a single argument. *)
Definition parse_parts (part : string) : PurePath :=
  if String.eqb part "" then mkPath "" []
  else
    let '(root, rel) := splitroot part in
    mkPath root (filter keep_name (pystr.split sep rel)).

(** [Path(s)] *)
Definition Path (s : string) : PurePath := parse_parts s.

(** [_PosixFlavour.join_parsed_parts]: an anchored second path replaces
    the first. *)
Definition join_parsed_parts (p p2 : PurePath) : PurePath :=
  if negb (String.eqb (path_root p2) "") then p2
  else mkPath (path_root p) (path_names p ++ path_names p2).

(** [self.joinpath(arg)] *)
Definition joinpath (self : PurePath) (arg : string) : PurePath :=
  join_parsed_parts self (parse_parts arg).

(** [self.name]: the final component, if any. *)
Definition name (self : PurePath) : string := List.last (path_names self) "".

(** [self.suffix] *)
Definition suffix_of (nm : string) : string :=
  let i := pystr.rfind nm "."%char in
  if ((0 <? i) && (i <? Z.of_nat (String.length nm) - 1))%Z
  then pystr.slice_from nm (Z.to_nat i)
  else "".

Definition suffix (self : PurePath) : string := suffix_of (name self).

(** [self.with_suffix(suffix)] *)
Definition with_suffix (self : PurePath) (sfx : string) : result PurePath :=
  if pystr.contains sep sfx then Raise (ValueError "Invalid suffix")
  else if (negb (String.eqb sfx "") && negb (pystr.startswith sfx "."))
          || String.eqb sfx "."
  then Raise (ValueError "Invalid suffix")
  else
    let nm := name self in
    if String.eqb nm "" then Raise (ValueError "has an empty name")
    else
      let old_suffix := suffix self in
      let nm' :=
        if String.eqb old_suffix "" then (nm ++ sfx)%string
        else (pystr.slice_to nm (String.length nm - String.length old_suffix) ++ sfx)%string in
      Ok (mkPath (path_root self) (removelast (path_names self) ++ [nm'])).

(** [self.with_name(name)] *)
Definition with_name (self : PurePath) (nm : string) : result PurePath :=
  if String.eqb (name self) "" then Raise (ValueError "has an empty name")
  else
    let p := parse_parts nm in
    if String.eqb nm ""
       || match pystr.last_char nm with
          | Some c => Ascii.eqb c sep
          | None => false
          end
       || negb (String.eqb (path_root p) "")
       || negb (Nat.eqb (List.length (path_names p)) 1)
    then Raise (ValueError "Invalid name")
    else Ok (mkPath (path_root self) (removelast (path_names self) ++ [nm])).

(** [str(self)] *)
Definition str (self : PurePath) : string :=
  match path_root self, path_names self with
  | EmptyString, [] => "."
  | r, l => (r ++ pystr.join "/" l)%string
  end.

End pathlib.

(** The two files [dropdb] computes from the table name (lines 127-128):
    [Path('migrations').joinpath(name).with_suffix('.json')] and
    [migration.with_name('current-' + migration.name)]. *)
Definition dropdb_paths (name : string)
  : result (pathlib.PurePath * pathlib.PurePath) :=
  match pathlib.with_suffix
          (pathlib.joinpath (pathlib.Path "migrations") name) ".json" with
  | Raise e => Raise e
  | Ok migration =>
      match pathlib.with_name migration ("current-" ++ pathlib.name migration)%string with
      | Raise e => Raise e
      | Ok current => Ok (migration, current)
      end
  end.

(** The two locations as strings, when both paths could be built. *)
Definition path_strs (r : result (pathlib.PurePath * pathlib.PurePath))
  : option (string * string) :=
  match r with
  | Ok (m, c) => Some (pathlib.str m, pathlib.str c)
  | Raise _ => None
  end.

(** ** The outside world *)

(** The state the launcher acts on but does not own: the live database, the
    file system holding the [migrations] directory, and the state of the
    process (loaded modules with the tables they registered, the terminal
    the operator answers on). *)
Class Outside : Type := {
  DB : Type;
  FS : Type;
  PROC : Type
}.

Record World `{Outside} : Type := mkWorld {
  w_db : DB;
  w_fs : FS;
  w_proc : PROC
}.
Arguments mkWorld {_} w_db w_fs w_proc.

(** A call to a collaborator returns or raises, and leaves a new state. *)
Definition action (S A : Type) : Type := S -> result A * S.

(** A subclass of [db.Table]: [__tablename__], [__module__] and the
    coroutine [create(verbose=...)]. *)
Record Table `{Outside} : Type := mkTable {
  tablename : string;
  table_module : string;
  table_create : bool -> action World unit
}.
Arguments mkTable {_} tablename table_module table_create.

(** An attribute of the [data_migrators] module: its [__name__] and the
    coroutine started by [migrator(pool, client)]. *)
Record migrator `{Outside} : Type := mkMigrator {
  mig_name : string;
  mig_run : action World unit
}.
Arguments mkMigrator {_} mig_name mig_run.

(** The collaborators of the launcher. *)
Class Env `{Outside} : Type := {
  (* bot.initial_extensions *)
  initial_extensions : list string;
  (* the namespace of data_migrators, in declaration order; a dict, so no
     name occurs twice *)
  data_migrators : list (string * migrator);
  (* db.Table.create_pool(config.postgresql) *)
  Table_create_pool : action World unit;
  (* importlib.import_module(ext) *)
  import_module : string -> action World unit;
  (* db.Table.all_tables() *)
  all_tables : PROC -> list Table;
  (* asyncpg.connect(config.postgresql), con.execute(sql), con.close() *)
  asyncpg_connect : action DB unit;
  con_execute : string -> action DB unit;
  con_close : action DB unit;
  (* asyncpg.create_pool(config.postgresql) *)
  asyncpg_create_pool : action World unit;
  (* click.confirm(text, abort=True): the operator's answer *)
  click_confirm : string -> PROC -> bool * PROC;
  (* Path.exists(): false for a missing file, and an OSError raised for a
     path that cannot be examined (a name too long, a directory that may
     not be searched); Path.unlink() *)
  path_exists : pathlib.PurePath -> FS -> result bool;
  path_unlink : pathlib.PurePath -> action FS unit;
  (* client.start(config.token): returns once on_ready has logged out;
     the value is (str(client.user), str(client.user.id)) *)
  client_start : action World (string * string)
}.

(** What an observer of a run sees, in program order. *)
Inductive event : Type :=
| Echo (err : bool) (msg : string)         (* click.echo, err=True for stderr *)
| Confirm (text : string) (answer : bool)
| TableCreatePool
| ImportModule (ext : string)
| TableCreate (name : string) (verbose : bool)
| Connect
| Execute (sql : string)
| Close
| Exists (p : string)
| Unlink (p : string)
| CreatePool
| ClientStart
| Migrate (name : string).

(** [traceback.format_exc()] inside a handler. *)
Definition format_exc (e : exn) : string :=
  match e with
  | AttributeError msg => ("AttributeError: " ++ msg)%string
  | ValueError msg => ("ValueError: " ++ msg)%string
  | Abort => "click.exceptions.Abort"
  | Error tb => tb
  | BaseError tb => tb
  end.

Section Monad.
Context `{Outside}.

(** The outcome of running a piece of the launcher from a world. *)
Record Res (A : Type) : Type := mkRes {
  res : result A;
  world : World;
  trace : list event
}.
Arguments mkRes {A} res world trace.
Arguments res {A} r.
Arguments world {A} r.
Arguments trace {A} r.

Definition M (A : Type) : Type := World -> Res A.

Definition ret {A} (a : A) : M A := fun w => mkRes (Ok a) w [].

Definition bind {A B} (m : M A) (f : A -> M B) : M B :=
  fun w =>
    let r := m w in
    match res r with
    | Ok a => let r' := f a (world r) in mkRes (res r') (world r') (trace r ++ trace r')
    | Raise e => mkRes (Raise e) (world r) (trace r)
    end.

(** [try: body / except <catches>: handler / else: orelse] *)
Definition try_except_else {A B} (catches : exn -> bool)
  (body : M A) (handler : exn -> M B) (orelse : A -> M B) : M B :=
  fun w =>
    let r := body w in
    match res r with
    | Ok a => let r' := orelse a (world r) in mkRes (res r') (world r') (trace r ++ trace r')
    | Raise e =>
        if catches e
        then let r' := handler e (world r) in mkRes (res r') (world r') (trace r ++ trace r')
        else mkRes (Raise e) (world r) (trace r)
    end.

Definition emit (ev : event) : M unit := fun w => mkRes (Ok tt) w [ev].

(** A call to a collaborator, recorded before it acts. *)
Definition call {A} (ev : event) (op : action World A) : M A :=
  fun w => let '(r, w') := op w in mkRes r w' [ev].

Definition on_db {A} (op : action DB A) : action World A :=
  fun w => let '(r, d) := op (w_db w) in (r, mkWorld d (w_fs w) (w_proc w)).

Definition on_fs {A} (op : action FS A) : action World A :=
  fun w => let '(r, f) := op (w_fs w) in (r, mkWorld (w_db w) f (w_proc w)).

Definition of_result {A} (r : result A) : M A :=
  fun w => mkRes r w [].

(** [for x in l: body] *)
Fixpoint for_in {A} (l : list A) (body : A -> M unit) : M unit :=
  match l with
  | [] => ret tt
  | x :: l' => bind (body x) (fun _ => for_in l' body)
  end.

(** [for x in l: body] where the body may execute [return]: the body
    yields [true] when it has returned from the enclosing function, which
    ends the loop, and [false] to go on with the next element.  The loop
    yields [true] when some iteration returned. *)
Fixpoint for_in_return {A} (l : list A) (body : A -> M bool) : M bool :=
  match l with
  | [] => ret false
  | x :: l' =>
      bind (body x) (fun returned =>
        if returned then ret true else for_in_return l' body)
  end.

End Monad.

Arguments mkRes {_ A} res world trace.
Arguments res {_ A} r.
Arguments world {_ A} r.
Arguments trace {_ A} r.

Notation "x <- m ;; k" := (bind m (fun x => k))
  (at level 61, m at next level, right associativity).
Notation "m ;; k" := (bind m (fun _ => k))
  (at level 61, right associativity).

(** ** The import-unit registry: the [data_migrators] module *)

(** [getattr(module, attr)] *)
Fixpoint getattr `{Outside} (ns : list (string * migrator)) (attr : string)
  : result migrator :=
  match ns with
  | [] => Raise (AttributeError ("module 'data_migrators' has no attribute " ++ attr)%string)
  | (k, v) :: ns' => if String.eqb k attr then Ok v else getattr ns' attr
  end.

Fixpoint insort (x : string) (l : list string) : list string :=
  match l with
  | [] => [x]
  | y :: l' => if String.leb x y then x :: l else y :: insort x l'
  end.

(** [sorted(l)] on strings, which Python compares by code point. *)
Definition sorted (l : list string) : list string := fold_right insort [] l.

(** [dir(module)]: the names of the module's attributes, sorted. *)
Definition dir `{Outside} (ns : list (string * migrator)) : list string :=
  sorted (map fst ns).

Definition is_AttributeError (e : exn) : bool :=
  match e with
  | AttributeError _ => true
  | _ => false
  end.

(** ** The commands *)

Section Launcher.
Context `{Env}.

Definition echo (msg : string) : M unit := emit (Echo false msg).
Definition echo_err (msg : string) : M unit := emit (Echo true msg).

(** The body of [for table in db.Table.all_tables()] (lines 98-103). *)
Definition initdb_table (quiet : bool) (table : Table) : M unit :=
  try_except_else is_Exception
    (call (TableCreate (tablename table) (negb quiet))
          (table_create table (negb quiet)))
    (fun e => echo_err ("Could not create " ++ tablename table ++ "."
                        ++ pystr.nl ++ format_exc e)%string)
    (fun _ => echo ("[" ++ table_module table
                    ++ "] Processing creation or migration for "
                    ++ tablename table ++ " complete.")%string).

(** The body of [for ext in extension] (lines 92-95). *)
Definition initdb_import (ext : string) : M unit :=
  try_except_else is_Exception
    (call (ImportModule ext) (import_module ext))
    (fun e => echo_err ("Could not load " ++ ext ++ "."
                        ++ pystr.nl ++ format_exc e)%string)
    (fun _ => ret tt).

Definition registered_tables : M (list Table) :=
  fun w => mkRes (Ok (all_tables (w_proc w))) w [].

(** [if not extension: extension = initial_extensions] (lines 88-89). *)
Definition initdb_extensions (extension : list string) : list string :=
  match extension with
  | [] => initial_extensions
  | _ => extension
  end.

(** [initdb(extension, quiet)] (lines 75-103). *)
Definition initdb (extension : list string) (quiet : bool) : M unit :=
  try_except_else is_Exception
    (call TableCreatePool Table_create_pool)
    (fun e => echo_err ("Could not create PostgreSQL connection pool."
                        ++ pystr.nl ++ format_exc e)%string)      (* return *)
    (fun _ =>
       for_in (initdb_extensions extension) initdb_import ;;
       tables <- registered_tables ;;
       for_in tables (initdb_table quiet)).

(** [f'DROP TABLE {name};'] (line 112). *)
Definition drop_table (name : string) : string :=
  ("DROP TABLE " ++ name ++ ";")%string.

(** [remove_database(name)] (lines 105-113): the bare [except] swallows
    every failure of the connection; the statement and the close run in
    the [else] branch, outside the protected block. *)
Definition remove_database (name : string) : M unit :=
  try_except_else (fun _ => true)
    (call Connect (on_db asyncpg_connect))
    (fun _ => ret tt)                                              (* pass *)
    (fun _ =>
       call (Execute (drop_table name)) (on_db (con_execute (drop_table name))) ;;
       call Close (on_db con_close)).

(** [click.confirm(text, abort=True)]: a refusal raises [click.Abort]. *)
Definition confirm_or_abort (text : string) : M unit :=
  fun w =>
    let '(answer, p) := click_confirm text (w_proc w) in
    mkRes (if answer then Ok tt else Raise Abort)
          (mkWorld (w_db w) (w_fs w) p) [Confirm text answer].

(** [p.exists()]: it changes nothing, and may raise. *)
Definition exists_ (p : pathlib.PurePath) : M bool :=
  fun w => mkRes (path_exists p (w_fs w)) w [Exists (pathlib.str p)].

Definition unlink (p : pathlib.PurePath) : M unit :=
  call (Unlink (pathlib.str p)) (on_fs (path_unlink p)).

(** [not migration.exists() or not current.exists()] (line 138): [or]
    looks at the second file only when the first exists; the line stands
    outside every [try], so what [exists] raises leaves the command. *)
Definition files_missing (migration current : pathlib.PurePath) : M bool :=
  m <- exists_ migration ;;
  if negb m then ret true
  else (c <- exists_ current ;; ret (negb c)).

(** [try: p.unlink() / except: click.echo(warning)] (lines 141-149). *)
Definition unlink_or_warn (p : pathlib.PurePath) (warning : string) : M unit :=
  try_except_else (fun _ => true) (unlink p)
    (fun _ => echo warning)
    (fun _ => ret tt).

(** Lines 138-151 of [dropdb]: the two files are looked for, then removed,
    each removal under its own bare [except]. *)
Definition dropdb_store (migration current : pathlib.PurePath) (name : string)
  : M unit :=
  missing <- files_missing migration current ;;
  (if missing
   then echo "warning: could not find the appropriate files."
   else ret tt) ;;
  unlink_or_warn migration "warning: could not delete migration file" ;;
  unlink_or_warn current "warning: could not delete current migration file" ;;
  echo ("successfully removed " ++ name ++ " database")%string.

Definition confirm_text : string := "do you really want to do this?".

(** [dropdb(name, quiet)] (lines 118-151). *)
Definition dropdb (name : string) (quiet : bool) : M unit :=
  paths <- of_result (dropdb_paths name) ;;
  let '(migration, current) := paths in
  confirm_or_abort confirm_text ;;
  try_except_else is_Exception
    (remove_database name)
    (fun e => echo_err ("could not delete the database"
                        ++ pystr.nl ++ format_exc e)%string)      (* return *)
    (fun _ => dropdb_store migration current name).

(** The [else] branch of lines 180-188: names are looked up one after the
    other; [None] is the [return] after an unknown name. *)
Fixpoint resolve_cogs (cogs : list string) (to_run : list (migrator * string))
  : M (option (list (migrator * string))) :=
  match cogs with
  | [] => ret (Some to_run)
  | cog :: cogs' =>
      try_except_else is_AttributeError
        (of_result (getattr data_migrators ("migrate_" ++ cog)%string))
        (fun _ => echo_err ("invalid cog name given, " ++ cog ++ ".")%string ;;
                  ret None)                                        (* return *)
        (fun elem => resolve_cogs cogs' (to_run ++ [(elem, cog)]))
  end.

(** The comprehension of lines 177-178. *)
Fixpoint resolve_attrs (attrs : list string) : M (list (migrator * string)) :=
  match attrs with
  | [] => ret []
  | attr :: attrs' =>
      elem <- of_result (getattr data_migrators attr) ;;
      rest <- resolve_attrs attrs' ;;
      ret ((elem, pystr.replace attr "migrate_" "") :: rest)
  end.

(** Lines 176-188: the units to run, or [None] when the command returned. *)
Definition resolve (cogs : list string) : M (option (list (migrator * string))) :=
  if existsb (fun n => String.eqb n "all") cogs
  then
    to_run <- resolve_attrs
                (filter (fun attr => pystr.startswith attr "migrate_")
                        (dir data_migrators)) ;;
    ret (Some to_run)
  else resolve_cogs cogs [].

(** The body of [for migrator, _ in to_run] (lines 212-218); [true] is the
    [return] of the handler. *)
Definition run_migrator (unit_ : migrator * string) : M bool :=
  let '(migrator, _) := unit_ in
  try_except_else is_Exception
    (call (Migrate (mig_name migrator)) (mig_run migrator))
    (fun e => echo_err ("migrator " ++ mig_name migrator
                        ++ " has failed, terminating"
                        ++ pystr.nl ++ format_exc e)%string ;;
              ret true)                                            (* return *)
    (fun _ => echo ("migrator " ++ mig_name migrator
                    ++ " completed successfully")%string ;;
              ret false).

(** Lines 190-209: the pool, the session with Discord, the schema.  [None]
    is the [return] after the pool could not be created. *)
Definition convertjson_setup (to_run : list (migrator * string)) : M (option unit) :=
  try_except_else is_Exception
    (call CreatePool asyncpg_create_pool)
    (fun e => echo_err ("Could not create PostgreSQL connection pool."
                        ++ pystr.nl ++ format_exc e)%string ;;
              ret None)                                            (* return *)
    (fun pool =>
       (* run(client.start(config.token)), in which on_ready prints and
          logs out *)
       user <- call ClientStart client_start ;;
       echo ("successfully booted up bot " ++ fst user
             ++ " (ID: " ++ snd user ++ ")")%string ;;
       let extensions := map (fun '(_, name) => ("cogs." ++ name)%string) to_run in
       (* ctx.invoke(initdb, extension=extensions): quiet is the flag's
          default *)
       initdb extensions false ;;
       ret (Some tt)).

(** [convertjson(ctx, cogs)] (lines 156-218). *)
Definition convertjson (cogs : list string) : M unit :=
  resolved <- resolve cogs ;;
  match resolved with
  | None => ret tt
  | Some to_run =>
      ready <- convertjson_setup to_run ;;
      match ready with
      | None => ret tt
      | Some _ => for_in_return to_run run_migrator ;; ret tt
      end
  end.

End Launcher.

(** ** A concrete world

    A small PostgreSQL, file system and terminal on which the commands can
    be run: enough to replay the scenarios of the specification. *)

(** The database: whether the server accepts connections, the live
    tables, and the rows the import units have written. *)
Record pg : Type := mkPg {
  pg_up : bool;
  pg_tables : list string;
  pg_rows : list string
}.

(** The process: the operator's answer to a prompt and the modules loaded
    so far. *)
Record proc : Type := mkProc {
  answer : bool;
  loaded : list string
}.

Definition sim_outside : Outside := {|
  DB := pg;
  FS := list string;          (* the paths of the existing files *)
  PROC := proc
|}.

Section Simulation.
#[local] Existing Instance sim_outside.

Definition mem (x : string) (l : list string) : bool :=
  existsb (String.eqb x) l.

Definition remove_str (x : string) (l : list string) : list string :=
  filter (fun y => negb (String.eqb x y)) l.

Definition sim_connect : action pg unit :=
  fun d => if pg_up d then (Ok tt, d) else (Raise (Error "ConnectionRefusedError"), d).

(** [DROP TABLE t;] drops a live table and is an error on any other. *)
Definition sim_execute (sql : string) : action pg unit :=
  fun d =>
    match find (fun t => String.eqb sql ("DROP TABLE " ++ t ++ ";")%string) (pg_tables d) with
    | Some t => (Ok tt, mkPg (pg_up d) (remove_str t (pg_tables d)) (pg_rows d))
    | None => (Raise (Error "asyncpg.exceptions.UndefinedTableError"), d)
    end.

(** [exists] cannot examine a path with a component of more than 255
    characters: the system call fails with ENAMETOOLONG, which
    [Path.exists] lets through. *)
Definition sim_exists (p : pathlib.PurePath) (fs : list string) : result bool :=
  if existsb (fun n => Nat.ltb 255 (String.length n)) (pathlib.path_names p)
  then Raise (Error "OSError: [Errno 36] File name too long")
  else Ok (mem (pathlib.str p) fs).

Definition sim_unlink (p : pathlib.PurePath) : action (list string) unit :=
  fun fs =>
    if mem (pathlib.str p) fs then (Ok tt, remove_str (pathlib.str p) fs)
    else (Raise (Error "FileNotFoundError"), fs).

(** [create] makes the table live and writes its two migration files. *)
Definition sim_create (name : string) (verbose : bool) : action World unit :=
  fun w =>
    let d := w_db w in
    if pg_up d then
      let history := ("migrations/" ++ name ++ ".json")%string in
      let current := ("migrations/current-" ++ name ++ ".json")%string in
      (Ok tt,
       mkWorld (mkPg true (name :: remove_str name (pg_tables d)) (pg_rows d))
                 (history :: current
                  :: remove_str history (remove_str current (w_fs w)))
                 (w_proc w))
    else (Raise (Error "asyncpg.exceptions.InterfaceError"), w).

(** A table whose DDL the database rejects. *)
Definition sim_create_rejected (verbose : bool) : action World unit :=
  fun w => (Raise (Error "asyncpg.exceptions.DatatypeMismatchError"), w).

Definition sim_table_tags : Table :=
  mkTable "tags" "cogs.tags" (sim_create "tags").
Definition sim_table_tag_lookup : Table :=
  mkTable "tag_lookup" "cogs.tags" sim_create_rejected.
Definition sim_table_mod : Table :=
  mkTable "guild_mod_config" "cogs.mod" (sim_create "guild_mod_config").
Definition sim_table_rtfm : Table :=
  mkTable "rtfm" "cogs.api" (sim_create "rtfm").
Definition sim_table_profiles : Table :=
  mkTable "profiles" "cogs.profiles" (sim_create "profiles").

(** The tables a module registers when it is loaded. *)
Definition sim_tables_of (module : string) : list Table :=
  if String.eqb module "cogs.tags" then [sim_table_tags; sim_table_tag_lookup]
  else if String.eqb module "cogs.mod" then [sim_table_mod]
  else if String.eqb module "cogs.api" then [sim_table_rtfm]
  else if String.eqb module "cogs.profiles" then [sim_table_profiles]
  else [].

Definition sim_import (ext : string) : action World unit :=
  fun w =>
    if mem ext ["cogs.tags"; "cogs.mod"; "cogs.api"; "cogs.profiles"] then
      (Ok tt,
       mkWorld (w_db w) (w_fs w)
         (mkProc (answer (w_proc w))
                 (if mem ext (loaded (w_proc w)) then loaded (w_proc w)
                  else loaded (w_proc w) ++ [ext])))
    else (Raise (Error "ModuleNotFoundError"), w).

(** An import unit that replaces the rows of its table. *)
Definition sim_migrate (rows : string) : action World unit :=
  fun w =>
    let d := w_db w in
    (Ok tt, mkWorld (mkPg (pg_up d) (pg_tables d) (rows :: remove_str rows (pg_rows d)))
                      (w_fs w) (w_proc w)).

(** An import unit that fails on its legacy file. *)
Definition sim_migrate_failing : action World unit :=
  fun w => (Raise (Error "json.decoder.JSONDecodeError"), w).

Definition sim_migrate_tags : migrator :=
  mkMigrator "migrate_tags" (sim_migrate "tags rows").
Definition sim_migrate_mod : migrator :=
  mkMigrator "migrate_mod" sim_migrate_failing.
Definition sim_migrate_api : migrator :=
  mkMigrator "migrate_api" (sim_migrate "rtfm rows").
Definition sim_migrate_profiles : migrator :=
  mkMigrator "migrate_profiles" (sim_migrate "profiles rows").

(** [data_migrators] declares [migrate_tags], then [migrate_mod], then
    [migrate_api], then [migrate_profiles]. *)
Definition sim_migrators : list (string * migrator) :=
  [("migrate_tags", sim_migrate_tags);
   ("migrate_mod", sim_migrate_mod);
   ("migrate_api", sim_migrate_api);
   ("migrate_profiles", sim_migrate_profiles)].

Definition sim_env : Env := {|
  initial_extensions := ["cogs.tags"; "cogs.mod"; "cogs.api"; "cogs.profiles"];
  data_migrators := sim_migrators;
  Table_create_pool := on_db sim_connect;
  import_module := sim_import;
  all_tables := fun p => flat_map sim_tables_of (loaded p);
  asyncpg_connect := sim_connect;
  con_execute := sim_execute;
  con_close := fun d => (Ok tt, d);
  asyncpg_create_pool := on_db sim_connect;
  click_confirm := fun _ p => (answer p, p);
  path_exists := sim_exists;
  path_unlink := sim_unlink;
  client_start := fun w => (Ok ("R. Danny#6348", "80528701850124288"), w)
|}.

(** A table name of 300 characters. *)
Definition sim_long_name : string := String.concat "" (List.repeat "a"%string 300).

(** A world in which the migration files of [tags] exist: whether the
    server is up, what the operator will answer, and the live tables. *)
Definition sim_world (up confirmed : bool) (tables : list string) : World :=
  mkWorld (mkPg up tables [])
            ["migrations/tags.json"; "migrations/current-tags.json"]
            (mkProc confirmed []).

End Simulation.

(** ** Vocabulary of the properties *)

(** The order of [sorted] and [dir()]. *)
Definition str_le (a b : string) : Prop := String.leb a b = true.

(** The names of the import units in the order [data_migrators] declares
    them. *)
Definition declared_units `{Outside} (ns : list (string * migrator)) : list string :=
  filter (fun attr => pystr.startswith attr "migrate_") (map fst ns).

(** A resolved unit [u] stands for the attribute [attr]. *)
Definition unit_of `{Env} (attr : string) (u : migrator * string) : Prop :=
  getattr data_migrators attr = Ok (fst u)
  /\ snd u = pystr.replace attr "migrate_" "".

Ltac run_monad :=
  unfold bind, try_except_else, call, emit, ret, of_result in *;
  cbn [res world trace] in *.

(** Whether a requested name has its [migrate_] attribute. *)
Definition registered `{Env} (cog : string) : bool :=
  match getattr data_migrators ("migrate_" ++ cog)%string with
  | Ok _ => true
  | Raise _ => false
  end.

(** The units of a list all run to completion, one after the other, each
    from the world its predecessor left. *)
Inductive run_all_ok `{Outside} : list (migrator * string) -> World -> World -> Prop :=
| run_all_nil (w : World) : run_all_ok [] w w
| run_all_cons (m : migrator) (n : string) (rest : list (migrator * string))
    (w w' w'' : World) :
    mig_run m w = (Ok tt, w') ->
    run_all_ok rest w' w'' ->
    run_all_ok ((m, n) :: rest) w w''.

(** What the loop of [convertjson] records for units that complete. *)
Definition completed_trace `{Outside} (units : list (migrator * string)) : list event :=
  flat_map (fun u => [Migrate (mig_name (fst u));
                      Echo false ("migrator " ++ mig_name (fst u)
                                  ++ " completed successfully")%string]) units.

(** The phases of an import run, as [convertjson] goes through them: the
    pool, the session with the external service, the schema, the units.
    What is printed belongs to no phase. *)
Definition phase (ev : event) : option nat :=
  match ev with
  | CreatePool => Some 0
  | ClientStart => Some 1
  | TableCreatePool | ImportModule _ | TableCreate _ _ => Some 2
  | Migrate _ => Some 3
  | _ => None
  end.

(** The phases in the order the specification gives them: the schema
    before the session with the external service. *)
Definition phase_claimed (ev : event) : option nat :=
  match ev with
  | CreatePool => Some 0
  | TableCreatePool | ImportModule _ | TableCreate _ _ => Some 1
  | ClientStart => Some 2
  | Migrate _ => Some 3
  | _ => None
  end.

(** No event of a phase comes after an event of a later phase. *)
Definition in_phase_order (rank : event -> option nat) (tr : list event) : Prop :=
  forall l1 q l2 p n m,
    tr = l1 ++ q :: l2 -> In p l2 ->
    rank q = Some n -> rank p = Some m -> n <= m.

(** The tables whose [create] was started, in order. *)
Definition created (tr : list event) : list string :=
  flat_map (fun ev => match ev with TableCreate n _ => [n] | _ => [] end) tr.

(** The actions of [dropdb] that cannot be taken back. *)
Definition destructive (ev : event) : bool :=
  match ev with
  | Execute _ | Unlink _ => true
  | _ => false
  end.


(** [q] may come before [p]. *)
Definition phase_le (q p : event) : Prop :=
  forall n m, phase q = Some n -> phase p = Some m -> n <= m.

(** A stretch of a run that goes through the phases [lo] to [hi] in order. *)
Definition phase_block (lo hi : nat) (tr : list event) : Prop :=
  StronglySorted phase_le tr
  /\ Forall (fun ev => forall n, phase ev = Some n -> lo <= n <= hi) tr.


(** What the store phase of [dropdb] may record: looking for a file,
    unlinking it, a line on stdout. *)
Definition store_event (ev : event) : Prop :=
  match ev with
  | Exists _ | Unlink _ | Echo false _ => True
  | _ => False
  end.


(** [old in s] for a non-empty [old]: [old] occurs somewhere in [s]. *)
Fixpoint occurs (old s : string) : bool :=
  match s with
  | EmptyString => false
  | String _ s' => String.prefix old s || occurs old s'
  end.

(** The modules whose import was started, in order. *)
Definition imported (tr : list event) : list string :=
  flat_map (fun ev => match ev with ImportModule ext => [ext] | _ => [] end) tr.


(** ** Launching the bot: [setup_logging], [run] and [main] *)

(** The registry of the [logging] module as far as the launcher uses it.
    Handlers are objects; here they are numbers, given out in order of
    creation.  The root logger keeps the list of its handlers; a closed
    handler stays closed. *)
Module logging.

Definition DEBUG : nat := 10.
Definition INFO : nat := 20.

Record Registry : Type := mkRegistry {
  levels : list (string * nat);       (* setLevel, the latest call first *)
  formatters : list (nat * string);   (* setFormatter *)
  root : list nat;                    (* logging.getLogger().handlers *)
  closed : list nat;                  (* the handlers that were closed *)
  next : nat                          (* the handler created next *)
}.

(** [logging.getLogger(name).setLevel(level)]; [root] names the root
    logger. *)
Definition setLevel (name : string) (level : nat) (r : Registry) : Registry :=
  mkRegistry ((name, level) :: levels r) (formatters r) (root r) (closed r) (next r).

(** The object [logging.FileHandler(...)] builds once its file is open. *)
Definition newHandler (r : Registry) : nat * Registry :=
  (next r, mkRegistry (levels r) (formatters r) (root r) (closed r) (S (next r))).

(** [handler.setFormatter(fmt)] *)
Definition setFormatter (h : nat) (fmt : string) (r : Registry) : Registry :=
  mkRegistry (levels r) ((h, fmt) :: formatters r) (root r) (closed r) (next r).

(** [log.addHandler(hdlr)]: appended unless already there. *)
Definition addHandler (h : nat) (r : Registry) : Registry :=
  if existsb (Nat.eqb h) (root r) then r
  else mkRegistry (levels r) (formatters r) (root r ++ [h]) (closed r) (next r).

(** [list.remove(x)]: the first occurrence goes. *)
Fixpoint remove_first (h : nat) (l : list nat) : list nat :=
  match l with
  | [] => []
  | x :: l' => if Nat.eqb h x then l' else x :: remove_first h l'
  end.

(** [log.removeHandler(hdlr)]: removed if there. *)
Definition removeHandler (h : nat) (r : Registry) : Registry :=
  if existsb (Nat.eqb h) (root r)
  then mkRegistry (levels r) (formatters r) (remove_first h (root r)) (closed r) (next r)
  else r.

(** [hdlr.close()]: the handler is marked closed; closing is taken not to
    fail. *)
Definition close (h : nat) (r : Registry) : Registry :=
  mkRegistry (levels r) (formatters r) (root r) (h :: closed r) (next r).

End logging.

(** The process the bot runs in: the world of the commands and the
    registry of [logging]. *)
Record Process `{Outside} : Type := mkProcess {
  p_world : World;
  p_logging : logging.Registry
}.
Arguments mkProcess {_} p_world p_logging.

(** What a run of the launcher proper records: what the commands record,
    and besides the log file being opened, a record handed to the root
    logger, the bot being built and run. *)
Inductive bot_event : Type :=
| Cmd (ev : event)
| OpenLog (filename : string)
| CreatePoolTimeout (command_timeout : nat)
| LogException (msg : string) (tb : string)
| NewBot
| BotRun.

Record Outcome `{Outside} (A : Type) : Type := mkOutcome {
  o_res : result A;
  o_proc : Process;
  o_trace : list bot_event
}.
Arguments mkOutcome {_ A} o_res o_proc o_trace.
Arguments o_res {_ A} o.
Arguments o_proc {_ A} o.
Arguments o_trace {_ A} o.

(** The collaborators of [run] and [setup_logging]. *)
Class Bot `{Outside} : Type := {
  (* open(filename, 'w') inside logging.FileHandler *)
  open_log : string -> action FS unit;
  (* db.Table.create_pool(config.postgresql, command_timeout=...) *)
  Table_create_pool_timeout : nat -> action World unit;
  (* RoboDanny() *)
  RoboDanny : action Process unit;
  (* bot.run(), with bot.pool set *)
  bot_run : action Process unit
}.

Section Bot.
Context `{Bot}.

(** The [finally] block of [setup_logging] (lines 43-46): every handler of
    a copy of the root logger's list is closed and removed. *)
Definition close_and_remove (r : logging.Registry) (hdlr : nat) : logging.Registry :=
  logging.removeHandler hdlr (logging.close hdlr r).

Definition setup_logging_exit (r : logging.Registry) : logging.Registry :=
  fold_left close_and_remove (logging.root r) r.

Definition log_format : string :=
  "[{asctime}] [{levelname:<7}] {name}: {message}".

(** Lines 29-33: the levels of the [discord] loggers and of the root
    logger. *)
Definition setup_logging_levels (r : logging.Registry) : logging.Registry :=
  logging.setLevel "root" logging.INFO
    (logging.setLevel "discord.http" logging.DEBUG
       (logging.setLevel "discord" logging.INFO r)).

(** Lines 34-38, once the file is open: the handler is built, given its
    formatter and added to the root logger. *)
Definition setup_logging_handler (r : logging.Registry) : logging.Registry :=
  let '(handler, r') := logging.newHandler r in
  logging.addHandler handler (logging.setFormatter handler log_format r').

(** [with setup_logging(): body] (lines 25-46, 69-70): the levels are set,
    the log file is opened and its handler added; then the body runs; the
    [finally] block runs whether the file could be opened or not and
    whether the body returned or raised, and what was raised goes on. *)
Definition setup_logging {A} (body : Process -> Outcome A) (p : Process) : Outcome A :=
  let r := setup_logging_levels (p_logging p) in
  let '(opened, fs) := open_log "rdanny.log" (w_fs (p_world p)) in
  let w := mkWorld (w_db (p_world p)) fs (w_proc (p_world p)) in
  match opened with
  | Raise e =>
      mkOutcome (Raise e) (mkProcess w (setup_logging_exit r)) [OpenLog "rdanny.log"]
  | Ok _ =>
      (* yield *)
      let o := body (mkProcess w (setup_logging_handler r)) in
      mkOutcome (o_res o)
                (mkProcess (p_world (o_proc o))
                           (setup_logging_exit (p_logging (o_proc o))))
                (OpenLog "rdanny.log" :: o_trace o)
  end.

(** [run()] (lines 48-61). *)
Definition run (p : Process) : Outcome unit :=
  let '(pool, w) := Table_create_pool_timeout 60 (p_world p) in
  match pool with
  | Raise e =>
      if is_Exception e
      then mkOutcome (Ok tt) (mkProcess w (p_logging p))
             [CreatePoolTimeout 60;
              Cmd (Echo true "Could not set up PostgreSQL. Exiting.");
              LogException "Could not set up PostgreSQL. Exiting." (format_exc e)]
      else mkOutcome (Raise e) (mkProcess w (p_logging p)) [CreatePoolTimeout 60]
  | Ok _ =>
      let '(bot, p1) := RoboDanny (mkProcess w (p_logging p)) in
      match bot with
      | Raise e => mkOutcome (Raise e) p1 [CreatePoolTimeout 60; NewBot]
      | Ok _ =>
          let '(r, p2) := bot_run p1 in
          mkOutcome r p2 [CreatePoolTimeout 60; NewBot; BotRun]
      end
  end.

(** [main(ctx)] (lines 65-70): the body of the group runs the bot only
    when no subcommand was invoked. *)
Definition main (invoked_subcommand : option string) (p : Process) : Outcome unit :=
  match invoked_subcommand with
  | None => setup_logging run p
  | Some _ => mkOutcome (Ok tt) p []
  end.

End Bot.

(** A bot for the concrete world: the log file can be opened when the
    directory is writable, which the scenarios mark by the absence of the
    file [read-only]; the bot runs until it is stopped and adds a handler
    of its own while it runs. *)
Section SimulationBot.
#[local] Existing Instance sim_outside.

Definition sim_bot : Bot := {|
  open_log := fun filename fs =>
    if mem "read-only" fs then (Raise (Error "PermissionError"), fs)
    else (Ok tt, filename :: remove_str filename fs);
  Table_create_pool_timeout := fun _ => on_db sim_connect;
  RoboDanny := fun p => (Ok tt, p);
  bot_run := fun p =>
    (Ok tt,
     mkProcess (p_world p)
       (logging.addHandler (logging.next (p_logging p))
          (snd (logging.newHandler (p_logging p)))))
|}.

(** A registry in which a handler, number 0, is already on the root
    logger. *)
Definition sim_registry : logging.Registry :=
  logging.mkRegistry [] [] [0] [] 1.

End SimulationBot.


(** Variants of the concrete collaborators in which one of them fails:
    the login to the external service, the closing of a connection, the
    pool of [db.Table]. *)
Section SimulationFaults.
#[local] Existing Instance sim_outside.

Definition sim_env_faulty (login_ok close_ok table_pool_ok : bool) : Env := {|
  initial_extensions := ["cogs.tags"; "cogs.mod"; "cogs.api"; "cogs.profiles"];
  data_migrators := sim_migrators;
  Table_create_pool := fun w =>
    if table_pool_ok then on_db sim_connect w
    else (Raise (Error "asyncpg.exceptions.TooManyConnectionsError"), w);
  import_module := sim_import;
  all_tables := fun p => flat_map sim_tables_of (loaded p);
  asyncpg_connect := sim_connect;
  con_execute := sim_execute;
  con_close := fun d =>
    if close_ok then (Ok tt, d)
    else (Raise (Error "asyncpg.exceptions.ConnectionDoesNotExistError"), d);
  asyncpg_create_pool := on_db sim_connect;
  click_confirm := fun _ p => (answer p, p);
  path_exists := sim_exists;
  path_unlink := sim_unlink;
  client_start := fun w =>
    if login_ok then (Ok ("R. Danny#6348", "80528701850124288"), w)
    else (Raise (Error "discord.errors.LoginFailure"), w)
|}.

Definition sim_env_no_login : Env := sim_env_faulty false true true.
Definition sim_env_no_close : Env := sim_env_faulty true false true.
Definition sim_env_no_table_pool : Env := sim_env_faulty true true false.

End SimulationFaults.


(** The existence checks of line 138 return: the first does, and so does
    the second when it is made, that is when the first file exists. *)
Definition checks_return `{Env} (migration current : pathlib.PurePath) (fs : FS)
  (em ec : bool) : Prop :=
  path_exists migration fs = Ok em
  /\ (em = true -> path_exists current fs = Ok ec).

(** The loop of [initdb] over a list of tables, told as a relation: each
    [create] runs from the world its predecessor left, and is followed by
    the line for a table created or by the report of its failure. *)
Inductive tables_processed `{Outside} (verbose : bool)
  : list Table -> World -> World -> list event -> Prop :=
| processed_nil (w : World) : tables_processed verbose [] w w []
| processed_created (t : Table) (rest : list Table) (w w' w'' : World)
    (tr : list event) :
    table_create t verbose w = (Ok tt, w') ->
    tables_processed verbose rest w' w'' tr ->
    tables_processed verbose (t :: rest) w w''
      (TableCreate (tablename t) verbose
       :: Echo false ("[" ++ table_module t
                      ++ "] Processing creation or migration for "
                      ++ tablename t ++ " complete.")%string
       :: tr)
| processed_failed (t : Table) (rest : list Table) (w w' w'' : World)
    (tr : list event) (e : exn) :
    table_create t verbose w = (Raise e, w') ->
    is_Exception e = true ->
    tables_processed verbose rest w' w'' tr ->
    tables_processed verbose (t :: rest) w w''
      (TableCreate (tablename t) verbose
       :: Echo true ("Could not create " ++ tablename t ++ "."
                     ++ pystr.nl ++ format_exc e)%string
       :: tr).

(** ** Python strings and paths: lemmas *)

Lemma split_without_sep (c : ascii) (s : string) :
  pystr.contains c s = false -> pystr.split c s = [s].
Proof.
  induction s as [|a s IH]; simpl; intros Hc.
  - reflexivity.
  - apply orb_false_iff in Hc. destruct Hc as [Ha Hs].
    rewrite Ha, (IH Hs). reflexivity.
Qed.

Lemma contains_append (c : ascii) (s t : string) :
  pystr.contains c (s ++ t)%string = pystr.contains c s || pystr.contains c t.
Proof.
  induction s as [|a s IH]; simpl.
  - reflexivity.
  - rewrite IH. apply orb_assoc.
Qed.

Lemma last_char_append (s t : string) :
  t <> ""%string -> pystr.last_char (s ++ t)%string = pystr.last_char t.
Proof.
  intros Ht. induction s as [|a s IH]; simpl.
  - reflexivity.
  - rewrite <- IH. destruct (s ++ t)%string eqn:E.
    + destruct s; simpl in E; [contradiction | discriminate].
    + reflexivity.
Qed.

Lemma splitroot_relative (s : string) :
  pystr.contains pathlib.sep s = false -> pathlib.splitroot s = (""%string, s).
Proof.
  destruct s as [|a s]; simpl; intros Hc.
  - reflexivity.
  - apply orb_false_iff in Hc. destruct Hc as [Ha _].
    unfold pathlib.splitroot. rewrite Ha. reflexivity.
Qed.

(** A name that is one component: the path holds it unchanged. *)
Lemma parse_parts_component (s : string) :
  s <> ""%string -> s <> "."%string -> pystr.contains pathlib.sep s = false ->
  pathlib.parse_parts s = pathlib.mkPath "" [s].
Proof.
  intros Hne Hdot Hc. unfold pathlib.parse_parts.
  apply String.eqb_neq in Hne. apply String.eqb_neq in Hdot.
  rewrite Hne, (splitroot_relative s Hc), (split_without_sep _ _ Hc).
  simpl. unfold pathlib.keep_name. rewrite Hne, Hdot. reflexivity.
Qed.

Lemma append_length (s t : string) :
  String.length (s ++ t)%string = String.length s + String.length t.
Proof. induction s; simpl; congruence. Qed.

(** ** C8: the files of the migration store *)

(** C8, as stated, fails on a table name that carries a suffix:
    [with_suffix] replaces the part after the last dot, so the
    schema-qualified name [public.tags] is sent to
    [migrations/public.json] and [migrations/current-public.json], not to
    [migrations/public.tags.json]; the table [public.users] is sent to the
    same two files. *)
Lemma dropdb_paths_dotted_name_counterexample :
  path_strs (dropdb_paths "public.tags")
  = Some ("migrations/public.json"%string, "migrations/current-public.json"%string)
  /\ path_strs (dropdb_paths "public.tags")
     <> Some (("migrations/" ++ "public.tags" ++ ".json")%string,
              ("migrations/current-" ++ "public.tags" ++ ".json")%string)
  /\ path_strs (dropdb_paths "public.users") = path_strs (dropdb_paths "public.tags").
Proof.
  repeat split; try reflexivity. vm_compute. discriminate.
Qed.

(** C8 (amended): for every table name that is a single path component
    without a suffix (not empty, not [.], free of [/], and with no dot
    except as its first or last character, which is when [Path.suffix] is
    empty), [dropdb] addresses the history file [migrations/<name>.json]
    and the current file [migrations/current-<name>.json]; the two are
    distinct, and both are computed from the name alone. *)
Theorem dropdb_paths_plain_name (name : string) :
  name <> ""%string -> name <> "."%string ->
  pystr.contains "/" name = false ->
  pathlib.suffix_of name = ""%string ->
  exists migration current,
    dropdb_paths name = Ok (migration, current)
    /\ pathlib.str migration = ("migrations/" ++ name ++ ".json")%string
    /\ pathlib.str current = ("migrations/current-" ++ name ++ ".json")%string
    /\ pathlib.str migration <> pathlib.str current.
Proof.
  intros Hne Hdot Hsep Hsfx.
  exists (pathlib.mkPath "" ["migrations"%string; (name ++ ".json")%string]).
  exists (pathlib.mkPath "" ["migrations"%string; ("current-" ++ name ++ ".json")%string]).
  assert (Hjoin : pathlib.joinpath (pathlib.Path "migrations") name
                  = pathlib.mkPath "" ["migrations"%string; name]).
  { unfold pathlib.joinpath. rewrite (parse_parts_component name Hne Hdot Hsep).
    reflexivity. }
  assert (Hmig : pathlib.with_suffix (pathlib.mkPath "" ["migrations"%string; name]) ".json"
                 = Ok (pathlib.mkPath "" ["migrations"%string; (name ++ ".json")%string])).
  { unfold pathlib.with_suffix, pathlib.suffix, pathlib.name. simpl.
    apply String.eqb_neq in Hne. rewrite Hne, Hsfx. reflexivity. }
  assert (Hcur_ne : (name ++ ".json")%string <> ""%string).
  { destruct name; [contradiction | discriminate]. }
  assert (Hcur : pathlib.with_name
                   (pathlib.mkPath "" ["migrations"%string; (name ++ ".json")%string])
                   ("current-" ++ name ++ ".json")%string
                 = Ok (pathlib.mkPath ""
                         ["migrations"%string; ("current-" ++ name ++ ".json")%string])).
  { unfold pathlib.with_name, pathlib.name.
    cbn [pathlib.path_names pathlib.path_root List.last].
    apply String.eqb_neq in Hcur_ne. rewrite Hcur_ne.
    assert (Hc : pystr.contains pathlib.sep ("current-" ++ name ++ ".json")%string = false).
    { unfold pathlib.sep. simpl. rewrite contains_append, Hsep. reflexivity. }
    rewrite (parse_parts_component ("current-" ++ name ++ ".json")%string)
      by (discriminate || exact Hc).
    change ("current-" ++ name ++ ".json")%string
      with (("current-" ++ name) ++ ".json")%string at 2.
    rewrite (last_char_append ("current-" ++ name) ".json") by discriminate.
    reflexivity. }
  unfold dropdb_paths. rewrite Hjoin, Hmig.
  cbn [pathlib.name pathlib.path_names List.last]. rewrite Hcur.
  repeat split; try reflexivity.
  unfold pathlib.str. cbn [pathlib.path_root pathlib.path_names].
  intros Heq. apply (f_equal String.length) in Heq.
  simpl in Heq. rewrite !append_length in Heq. simpl in Heq. lia.
Qed.

(** The name [tags] is such a name. *)
Lemma dropdb_paths_plain_name_witness :
  exists migration current,
    dropdb_paths "tags" = Ok (migration, current)
    /\ pathlib.str migration = "migrations/tags.json"%string
    /\ pathlib.str current = "migrations/current-tags.json"%string
    /\ pathlib.str migration <> pathlib.str current.
Proof.
  apply (dropdb_paths_plain_name "tags"); (discriminate || reflexivity).
Defined.

(** ** Sorting attribute names *)

Lemma str_le_trans (s t u : string) : str_le s t -> str_le t u -> str_le s u.
Proof.
  unfold str_le, String.leb. revert t u.
  induction s as [|a s IH]; intros [|b t] [|c u]; simpl; try easy.
  unfold Ascii.compare.
  destruct (N.compare_spec (N_of_ascii a) (N_of_ascii b)) as [E1|L1|G1];
    destruct (N.compare_spec (N_of_ascii b) (N_of_ascii c)) as [E2|L2|G2];
    try easy;
    destruct (N.compare_spec (N_of_ascii a) (N_of_ascii c)) as [E3|L3|G3];
    try easy; try lia.
  apply IH.
Qed.

Lemma insort_Permutation (x : string) (l : list string) :
  Permutation (insort x l) (x :: l).
Proof.
  induction l as [|y l IH]; simpl.
  - apply Permutation_refl.
  - destruct (String.leb x y).
    + apply Permutation_refl.
    + apply perm_trans with (y :: x :: l).
      * apply perm_skip, IH.
      * apply perm_swap.
Qed.

Lemma sorted_Permutation (l : list string) : Permutation (sorted l) l.
Proof.
  induction l as [|x l IH]; simpl.
  - apply perm_nil.
  - apply perm_trans with (x :: sorted l).
    + apply insort_Permutation.
    + apply perm_skip, IH.
Qed.

Lemma insort_StronglySorted (x : string) (l : list string) :
  StronglySorted str_le l -> StronglySorted str_le (insort x l).
Proof.
  induction 1 as [|y l Hl IH Hy]; simpl.
  - constructor; constructor.
  - destruct (String.leb x y) eqn:E.
    + constructor.
      * constructor; assumption.
      * constructor; [exact E|].
        eapply Forall_impl; [|exact Hy].
        intros z Hz. apply (str_le_trans x y z E Hz).
    + constructor; [exact IH|].
      apply (Permutation_Forall (Permutation_sym (insort_Permutation x l))).
      constructor; [|exact Hy].
      destruct (String.leb_total x y) as [Hxy|Hyx]; [congruence | exact Hyx].
Qed.

Lemma sorted_StronglySorted (l : list string) : StronglySorted str_le (sorted l).
Proof.
  induction l as [|x l IH]; simpl.
  - constructor.
  - apply insort_StronglySorted, IH.
Qed.

Lemma filter_Permutation (f : string -> bool) (l l' : list string) :
  Permutation l l' -> Permutation (filter f l) (filter f l').
Proof.
  induction 1 as [|x l l' Hl IH|x y l|l l' l'' H1 IH1 H2 IH2]; simpl.
  - constructor.
  - destruct (f x); [constructor|]; exact IH.
  - destruct (f x), (f y); try constructor; apply Permutation_refl.
  - eapply perm_trans; eassumption.
Qed.

Lemma filter_StronglySorted (f : string -> bool) (l : list string) :
  StronglySorted str_le l -> StronglySorted str_le (filter f l).
Proof.
  induction 1 as [|y l Hl IH Hy]; simpl.
  - constructor.
  - destruct (f y); [|exact IH].
    constructor; [exact IH|].
    apply Forall_forall. intros z Hz. apply filter_In in Hz.
    rewrite Forall_forall in Hy. apply Hy, Hz.
Qed.

(** ** The commands: properties *)

(** ** More on strings and paths *)

Lemma substring_whole (s : string) : String.substring 0 (String.length s) s = s.
Proof. induction s as [|a s IH]; simpl; [reflexivity | rewrite IH; reflexivity]. Qed.

Lemma substring_app_l (s t : string) :
  String.substring 0 (String.length s) (s ++ t)%string = s.
Proof.
  induction s as [|a s IH]; simpl.
  - destruct t; reflexivity.
  - rewrite IH. reflexivity.
Qed.

Lemma substring_app_r (s t : string) :
  String.substring (String.length s) (String.length t) (s ++ t)%string = t.
Proof.
  induction s as [|a s IH]; simpl.
  - apply substring_whole.
  - exact IH.
Qed.

Lemma substring_length_le (n m : nat) (s : string) :
  String.length (String.substring n m s) <= String.length s - n.
Proof.
  revert n m. induction s as [|a s IH]; intros [|n] [|m]; simpl; try lia.
  - specialize (IH 0 m). lia.
  - apply IH.
  - apply IH.
Qed.

Lemma rfind_from_absent (i : Z) (c : ascii) (s : string) :
  pystr.contains c s = false -> pystr.rfind_from i c s = (-1)%Z.
Proof.
  revert i. induction s as [|a s IH]; simpl; intros i Hc.
  - reflexivity.
  - apply orb_false_iff in Hc. destruct Hc as [Ha Hs].
    rewrite (IH (i + 1)%Z Hs), Ha. reflexivity.
Qed.

(** The last occurrence of [c] is the one followed by no other. *)
Lemma rfind_from_last (i : Z) (c : ascii) (s t : string) :
  (0 <= i)%Z -> pystr.contains c t = false ->
  pystr.rfind_from i c (s ++ String c t)%string = (i + Z.of_nat (String.length s))%Z.
Proof.
  revert i. induction s as [|a s IH]; intros i Hi Ht.
  - cbn [String.append pystr.rfind_from String.length].
    rewrite (rfind_from_absent (i + 1) c t Ht), Ascii.eqb_refl.
    cbn. lia.
  - cbn [String.append pystr.rfind_from String.length].
    rewrite (IH (i + 1)%Z) by (lia || exact Ht).
    destruct (0 <=? i + 1 + Z.of_nat (String.length s))%Z eqn:E.
    + lia.
    + apply Z.leb_gt in E. lia.
Qed.

(** [Path.suffix] of a name that ends in a dot followed by a dot-free,
    non-empty extension. *)
Lemma suffix_of_extension (stem ext : string) :
  stem <> ""%string -> ext <> ""%string -> pystr.contains "." ext = false ->
  pathlib.suffix_of (stem ++ String "." ext)%string = String "."%char ext.
Proof.
  intros Hstem Hext Hdot. unfold pathlib.suffix_of, pystr.rfind.
  rewrite (rfind_from_last 0 "." stem ext) by (lia || exact Hdot).
  rewrite append_length. cbn [String.length].
  assert (Hls : 0 < String.length stem) by (destruct stem; [contradiction | simpl; lia]).
  assert (Hle : 0 < String.length ext) by (destruct ext; [contradiction | simpl; lia]).
  replace ((0 <? 0 + Z.of_nat (String.length stem))%Z) with true
    by (symmetry; apply Z.ltb_lt; lia).
  replace ((0 + Z.of_nat (String.length stem)
            <? Z.of_nat (String.length stem + S (String.length ext)) - 1)%Z) with true
    by (symmetry; apply Z.ltb_lt; lia).
  cbn [andb]. unfold pystr.slice_from.
  rewrite append_length. cbn [String.length].
  replace (Z.to_nat (0 + Z.of_nat (String.length stem))) with (String.length stem) by lia.
  replace (String.length stem + S (String.length ext) - String.length stem)
    with (String.length (String "."%char ext)) by (simpl; lia).
  apply substring_app_r.
Qed.

(** What [with_suffix('.json')] builds: the final name becomes a non-empty
    base followed by [.json]. *)
Lemma with_suffix_json (self p : pathlib.PurePath) :
  pathlib.with_suffix self ".json" = Ok p ->
  exists base,
    base <> ""%string
    /\ p = pathlib.mkPath (pathlib.path_root self)
             (removelast (pathlib.path_names self) ++ [(base ++ ".json")%string]).
Proof.
  unfold pathlib.with_suffix. cbn [pystr.contains pystr.startswith].
  change (pystr.contains pathlib.sep ".json") with false.
  change ((negb (".json" =? "")%string && negb (String.prefix "." ".json")
           || (".json" =? ".")%string)) with false.
  cbv iota.
  destruct (String.eqb (pathlib.name self) "") eqn:Hname; [discriminate|].
  apply String.eqb_neq in Hname.
  destruct (String.eqb (pathlib.suffix self) "") eqn:Hsfx; intros [= <-].
  - exists (pathlib.name self). split; [exact Hname | reflexivity].
  - eexists. split; [|reflexivity].
    apply String.eqb_neq in Hsfx. unfold pathlib.suffix, pathlib.suffix_of in *.
    set (nm := pathlib.name self) in *.
    destruct ((0 <? pystr.rfind nm ".")%Z
              && (pystr.rfind nm "." <? Z.of_nat (String.length nm) - 1)%Z) eqn:Hi;
      [|contradiction].
    apply andb_true_iff in Hi. destruct Hi as [Hi1 Hi2].
    apply Z.ltb_lt in Hi1. apply Z.ltb_lt in Hi2.
    unfold pystr.slice_from, pystr.slice_to.
    pose proof (substring_length_le (Z.to_nat (pystr.rfind nm "."))
                  (String.length nm - Z.to_nat (pystr.rfind nm ".")) nm) as Hlen.
    destruct nm as [|a nm']; [contradiction|].
    destruct (String.length (String a nm')
              - String.length
                  (String.substring (Z.to_nat (pystr.rfind (String a nm') "."))
                     (String.length (String a nm')
                      - Z.to_nat (pystr.rfind (String a nm') "."))
                     (String a nm'))) eqn:Hk.
    + lia.
    + discriminate.
Qed.

Lemma with_name_ok (self p : pathlib.PurePath) (nm : string) :
  pathlib.with_name self nm = Ok p ->
  p = pathlib.mkPath (pathlib.path_root self)
        (removelast (pathlib.path_names self) ++ [nm]).
Proof.
  unfold pathlib.with_name.
  destruct (String.eqb (pathlib.name self) ""); [discriminate|].
  match goal with |- (if ?b then _ else _) = _ -> _ => destruct b end;
    [discriminate|].
  intros [= <-]. reflexivity.
Qed.

Lemma name_of_last (r : string) (l : list string) (x : string) :
  pathlib.name (pathlib.mkPath r (l ++ [x])) = x.
Proof. unfold pathlib.name. cbn [pathlib.path_names]. apply last_last. Qed.

Lemma suffix_of_json (base : string) :
  base <> ""%string -> pathlib.suffix_of (base ++ ".json")%string = ".json"%string.
Proof.
  intros Hb. apply (suffix_of_extension base "json"); [exact Hb | discriminate | reflexivity].
Qed.

(** X1: whenever [dropdb] can build its two paths, both files carry the
    suffix [.json], they lie in the same directory, and the name of the
    current file is the name of the history file with [current-] in
    front. *)
Theorem dropdb_paths_shape (name : string) (migration current : pathlib.PurePath) :
  dropdb_paths name = Ok (migration, current) ->
  pathlib.suffix migration = ".json"%string
  /\ pathlib.suffix current = ".json"%string
  /\ pathlib.name current = ("current-" ++ pathlib.name migration)%string
  /\ pathlib.path_root current = pathlib.path_root migration
  /\ removelast (pathlib.path_names current)
     = removelast (pathlib.path_names migration).
Proof.
  unfold dropdb_paths.
  destruct (pathlib.with_suffix (pathlib.joinpath (pathlib.Path "migrations") name)
              ".json") as [m|e] eqn:Hm; [|discriminate].
  destruct (pathlib.with_name m ("current-" ++ pathlib.name m)%string)
    as [c|e] eqn:Hc; [|discriminate].
  intros [= <- <-].
  destruct (with_suffix_json _ _ Hm) as [base [Hbase ->]].
  apply with_name_ok in Hc. subst c.
  cbn [pathlib.path_root pathlib.path_names].
  rewrite removelast_last.
  unfold pathlib.suffix. rewrite !name_of_last.
  split; [apply suffix_of_json, Hbase|].
  split.
  - change ("current-" ++ base ++ ".json")%string
      with (("current-" ++ base) ++ ".json")%string.
    apply suffix_of_json. discriminate.
  - split; [reflexivity|]. split; [reflexivity|].
    rewrite removelast_last. reflexivity.
Qed.

Lemma dropdb_paths_shape_witness :
  pathlib.suffix (pathlib.mkPath "" ["migrations"%string; "a"%string; "b.json"%string])
  = ".json"%string
  /\ pathlib.suffix
       (pathlib.mkPath "" ["migrations"%string; "a"%string; "current-b.json"%string])
     = ".json"%string
  /\ pathlib.name
       (pathlib.mkPath "" ["migrations"%string; "a"%string; "current-b.json"%string])
     = ("current-"
        ++ pathlib.name
             (pathlib.mkPath "" ["migrations"%string; "a"%string; "b.json"%string]))%string
  /\ pathlib.path_root
       (pathlib.mkPath "" ["migrations"%string; "a"%string; "current-b.json"%string])
     = pathlib.path_root
         (pathlib.mkPath "" ["migrations"%string; "a"%string; "b.json"%string])
  /\ removelast
       (pathlib.path_names
          (pathlib.mkPath "" ["migrations"%string; "a"%string; "current-b.json"%string]))
     = removelast
         (pathlib.path_names
            (pathlib.mkPath "" ["migrations"%string; "a"%string; "b.json"%string])).
Proof.
  apply (dropdb_paths_shape "a/b.txt"). reflexivity.
Defined.


Lemma with_suffix_json_unfold (self : pathlib.PurePath) :
  pathlib.with_suffix self ".json"
  = if String.eqb (pathlib.name self) ""
    then Raise (ValueError "has an empty name")
    else Ok (pathlib.mkPath (pathlib.path_root self)
               (removelast (pathlib.path_names self)
                ++ [if String.eqb (pathlib.suffix self) ""
                    then (pathlib.name self ++ ".json")%string
                    else (pystr.slice_to (pathlib.name self)
                            (String.length (pathlib.name self)
                             - String.length (pathlib.suffix self))
                          ++ ".json")%string])).
Proof. reflexivity. Qed.

Lemma with_name_current (r : string) (l : list string) (base : string) :
  pystr.contains pathlib.sep base = false ->
  pathlib.with_name (pathlib.mkPath r (l ++ [(base ++ ".json")%string]))
    ("current-" ++ base ++ ".json")%string
  = Ok (pathlib.mkPath r (l ++ [("current-" ++ base ++ ".json")%string])).
Proof.
  intros Hsep. unfold pathlib.with_name. rewrite name_of_last.
  assert (Hne : (base ++ ".json")%string <> ""%string).
  { destruct base; discriminate. }
  apply String.eqb_neq in Hne. rewrite Hne.
  assert (Hc : pystr.contains pathlib.sep ("current-" ++ base ++ ".json")%string = false).
  { unfold pathlib.sep in *. simpl. rewrite contains_append, Hsep. reflexivity. }
  rewrite (parse_parts_component ("current-" ++ base ++ ".json")%string)
    by (discriminate || exact Hc).
  change ("current-" ++ base ++ ".json")%string
    with (("current-" ++ base) ++ ".json")%string at 2.
  rewrite (last_char_append ("current-" ++ base) ".json") by discriminate.
  cbn [pathlib.path_names pathlib.path_root]. rewrite removelast_last. reflexivity.
Qed.

(** X2: a table name [<stem>.<ext>], with a non-empty stem and a non-empty
    extension free of dots, loses its extension: [dropdb] addresses
    [migrations/<stem>.json] and [migrations/current-<stem>.json], the
    files of every other table with the same stem. *)
Theorem dropdb_paths_replaces_suffix (stem ext : string) :
  stem <> ""%string -> ext <> ""%string ->
  pystr.contains "/" stem = false -> pystr.contains "/" ext = false ->
  pystr.contains "." ext = false ->
  exists migration current,
    dropdb_paths (stem ++ String "." ext)%string = Ok (migration, current)
    /\ pathlib.str migration = ("migrations/" ++ stem ++ ".json")%string
    /\ pathlib.str current = ("migrations/current-" ++ stem ++ ".json")%string.
Proof.
  intros Hstem Hext Hs1 Hs2 Hdot.
  set (name := (stem ++ String "." ext)%string).
  assert (Hsep : pystr.contains pathlib.sep name = false).
  { unfold name, pathlib.sep. rewrite contains_append. cbn [pystr.contains].
    rewrite Hs1, Hs2. reflexivity. }
  assert (Hne : name <> ""%string).
  { unfold name. destruct stem; [contradiction | discriminate]. }
  assert (Hnd : name <> "."%string).
  { unfold name. intros Heq. apply (f_equal String.length) in Heq.
    rewrite append_length in Heq. cbn [String.length] in Heq.
    destruct stem; [contradiction | simpl in Heq; lia]. }
  exists (pathlib.mkPath "" ["migrations"%string; (stem ++ ".json")%string]).
  exists (pathlib.mkPath "" ["migrations"%string; ("current-" ++ stem ++ ".json")%string]).
  assert (Hmig : pathlib.with_suffix
                   (pathlib.joinpath (pathlib.Path "migrations") name) ".json"
                 = Ok (pathlib.mkPath "" ["migrations"%string; (stem ++ ".json")%string])).
  { unfold pathlib.joinpath. rewrite (parse_parts_component name Hne Hnd Hsep).
    change (pathlib.join_parsed_parts (pathlib.Path "migrations")
              (pathlib.mkPath "" [name]))
      with (pathlib.mkPath "" (["migrations"%string] ++ [name])).
    rewrite with_suffix_json_unfold. unfold pathlib.suffix.
    rewrite name_of_last. cbn [pathlib.path_root pathlib.path_names].
    rewrite removelast_last.
    apply String.eqb_neq in Hne. rewrite Hne.
    unfold name. rewrite (suffix_of_extension stem ext Hstem Hext Hdot).
    replace (String "." ext =? "")%string with false by reflexivity.
    unfold pystr.slice_to. rewrite append_length.
    replace (String.length stem + String.length (String "."%char ext)
             - String.length (String "."%char ext)) with (String.length stem) by lia.
    rewrite substring_app_l. reflexivity. }
  pose proof (with_name_current "" ["migrations"%string] stem Hs1) as Hcur.
  cbn [app] in Hcur.
  unfold dropdb_paths. rewrite Hmig.
  change (pathlib.name
            (pathlib.mkPath "" ["migrations"%string; (stem ++ ".json")%string]))
    with (stem ++ ".json")%string.
  rewrite Hcur.
  split; [reflexivity|]. split; reflexivity.
Qed.

Lemma dropdb_paths_replaces_suffix_witness :
  exists migration current,
    dropdb_paths "public.tags" = Ok (migration, current)
    /\ pathlib.str migration = "migrations/public.json"%string
    /\ pathlib.str current = "migrations/current-public.json"%string.
Proof.
  apply (dropdb_paths_replaces_suffix "public" "tags");
    (discriminate || reflexivity).
Defined.





(** A name made of slashes only is the root: it has no final component. *)
Lemma dropdb_paths_root_only (name : string) :
  name <> ""%string -> pystr.lstrip "/" name = ""%string ->
  dropdb_paths name = Raise (ValueError "has an empty name").
Proof.
  intros Hne Hstrip.
  assert (Hp : pathlib.parse_parts name = pathlib.mkPath "/" []
               \/ pathlib.parse_parts name = pathlib.mkPath "//" []).
  { unfold pathlib.parse_parts. apply String.eqb_neq in Hne. rewrite Hne.
    destruct name as [|a name]; [discriminate|].
    unfold pathlib.splitroot. unfold pathlib.sep.
    cbn [pystr.lstrip] in Hstrip.
    destruct (Ascii.eqb a "/") eqn:Ha; [|discriminate].
    cbn [pystr.lstrip]. rewrite Ha, Hstrip.
    destruct (Nat.eqb _ 2); [right | left]; reflexivity. }
  unfold dropdb_paths, pathlib.joinpath.
  destruct Hp as [-> | ->]; reflexivity.
Qed.


Section Properties.
Context `{Env}.

(** *** Running the monad *)

Lemma bind_ok {A B} (m : M A) (f : A -> M B) (w : World) (a : A) (w' : World)
  (tr : list event) :
  m w = mkRes (Ok a) w' tr ->
  bind m f w = mkRes (res (f a w')) (world (f a w')) (tr ++ trace (f a w')).
Proof. intros Hm. unfold bind. rewrite Hm. reflexivity. Qed.

Lemma bind_raise {A B} (m : M A) (f : A -> M B) (w : World) (e : exn) (w' : World)
  (tr : list event) :
  m w = mkRes (Raise e) w' tr ->
  bind m f w = mkRes (Raise e) w' tr.
Proof. intros Hm. unfold bind. rewrite Hm. reflexivity. Qed.

Lemma try_ok {A B} (catches : exn -> bool) (body : M A) (handler : exn -> M B)
  (orelse : A -> M B) (w : World) (a : A) (w' : World) (tr : list event) :
  body w = mkRes (Ok a) w' tr ->
  try_except_else catches body handler orelse w
  = mkRes (res (orelse a w')) (world (orelse a w')) (tr ++ trace (orelse a w')).
Proof. intros Hm. unfold try_except_else. rewrite Hm. reflexivity. Qed.

Lemma try_caught {A B} (catches : exn -> bool) (body : M A) (handler : exn -> M B)
  (orelse : A -> M B) (w : World) (e : exn) (w' : World) (tr : list event) :
  body w = mkRes (Raise e) w' tr -> catches e = true ->
  try_except_else catches body handler orelse w
  = mkRes (res (handler e w')) (world (handler e w')) (tr ++ trace (handler e w')).
Proof.
  intros Hm Hc. unfold try_except_else. rewrite Hm. cbn [res world trace].
  rewrite Hc. reflexivity.
Qed.


Lemma call_run {A} (ev : event) (op : action World A) (w : World) (r : result A)
  (w' : World) :
  op w = (r, w') -> call ev op w = mkRes r w' [ev].
Proof. intros Hop. unfold call. rewrite Hop. reflexivity. Qed.

Lemma res_eta {A} (r : Res A) : mkRes (res r) (world r) (trace r) = r.
Proof. destruct r. reflexivity. Qed.

(** *** C7: the order of the units under ["all"] *)

Lemma getattr_declared (ns : list (string * migrator)) (attr : string) :
  In attr (map fst ns) -> exists v, getattr ns attr = Ok v.
Proof.
  induction ns as [|[k v] ns IH]; simpl; intros Hin.
  - contradiction.
  - destruct (String.eqb k attr) eqn:E.
    + exists v. reflexivity.
    + destruct Hin as [Hk|Hin].
      * apply String.eqb_neq in E. contradiction.
      * apply IH, Hin.
Qed.

Lemma resolve_attrs_declared (attrs : list string) (w : World) :
  (forall a, In a attrs -> In a (map fst data_migrators)) ->
  exists to_run,
    resolve_attrs attrs w = mkRes (Ok to_run) w []
    /\ Forall2 unit_of attrs to_run.
Proof.
  induction attrs as [|a attrs IH]; intros Hin.
  - exists []. split; [reflexivity | constructor].
  - destruct (getattr_declared data_migrators a) as [v Hv].
    { apply Hin. left. reflexivity. }
    destruct IH as [rest [Hrest Hunits]].
    { intros b Hb. apply Hin. right. exact Hb. }
    exists ((v, pystr.replace a "migrate_" "") :: rest). split.
    + simpl. run_monad. rewrite Hv. cbn [res world trace].
      rewrite Hrest. reflexivity.
    + constructor; [|exact Hunits]. split; [exact Hv | reflexivity].
Qed.

(** C7 (amended): when the requested names include ["all"], nothing is
    looked up by name and nothing is printed; the resolved sequence holds
    every [migrate_]-prefixed attribute of [data_migrators], as many times
    as it is declared, in ascending order of the attribute names (the order
    of [dir()]), whatever the order of declaration. *)
Theorem resolve_all_sorted (cogs : list string) (w : World) :
  In "all"%string cogs ->
  exists attrs to_run,
    resolve cogs w = mkRes (Ok (Some to_run)) w []
    /\ Forall2 unit_of attrs to_run
    /\ Permutation attrs (declared_units data_migrators)
    /\ StronglySorted str_le attrs.
Proof.
  intros Hall.
  assert (Hex : existsb (fun n => String.eqb n "all") cogs = true).
  { apply existsb_exists. exists "all"%string. split; [exact Hall | reflexivity]. }
  set (attrs := filter (fun attr => pystr.startswith attr "migrate_")
                       (dir data_migrators)).
  destruct (resolve_attrs_declared attrs w) as [to_run [Hrun Hunits]].
  { intros a Ha. apply filter_In in Ha. destruct Ha as [Ha _].
    apply (Permutation_in a (sorted_Permutation (map fst data_migrators))), Ha. }
  exists attrs, to_run. repeat split.
  - unfold resolve. rewrite Hex. fold attrs. run_monad. rewrite Hrun. reflexivity.
  - exact Hunits.
  - apply filter_Permutation, sorted_Permutation.
  - apply filter_StronglySorted, sorted_StronglySorted.
Qed.


(** *** C1: validation of the requested names *)

Lemma getattr_raises (ns : list (string * migrator)) (attr : string) (e : exn) :
  getattr ns attr = Raise e -> is_AttributeError e = true.
Proof.
  induction ns as [|[k v] ns IH]; simpl; intros Hg.
  - injection Hg as <-. reflexivity.
  - destruct (String.eqb k attr); [discriminate | apply IH, Hg].
Qed.

Lemma resolve_cogs_unknown (cogs : list string) :
  (exists cog, In cog cogs /\ registered cog = false) ->
  forall (to_run : list (migrator * string)) (w : World),
  exists cog,
    In cog cogs /\ registered cog = false
    /\ resolve_cogs cogs to_run w
       = mkRes (Ok None) w
           [Echo true ("invalid cog name given, " ++ cog ++ ".")%string].
Proof.
  induction cogs as [|c cogs IH]; intros [cog [Hin Hreg]] to_run w.
  - contradiction.
  - cbn [resolve_cogs]. run_monad. unfold registered in *.
    destruct (getattr data_migrators ("migrate_" ++ c)%string) as [v|e] eqn:Hc.
    + destruct Hin as [Heq|Hin].
      * subst c. rewrite Hc in Hreg. discriminate.
      * destruct (IH (ex_intro _ cog (conj Hin Hreg)) (to_run ++ [(v, c)]) w)
          as [c' [Hin' [Hreg' Hrun]]].
        exists c'. split; [right; exact Hin' | split; [exact Hreg' |]].
        cbn [res world trace]. rewrite Hrun. reflexivity.
    + exists c. cbn [res world trace].
      rewrite (getattr_raises _ _ _ Hc).
      split; [left; reflexivity | split; [rewrite Hc; reflexivity |]].
      unfold echo_err. run_monad. reflexivity.
Qed.

(** C1 (amended): for every requested list that does not hold the sentinel
    ["all"] and holds a name with no [migrate_<name>] attribute in
    [data_migrators], [convertjson] names an unregistered cog on stderr and
    returns; the world is as it was, and nothing else is recorded: no
    connection pool, no session with the external service, no unit. *)
Theorem convertjson_unknown_cog (cogs : list string) (w : World) :
  ~ In "all"%string cogs ->
  (exists cog, In cog cogs /\ registered cog = false) ->
  exists cog,
    In cog cogs /\ registered cog = false
    /\ convertjson cogs w
       = mkRes (Ok tt) w
           [Echo true ("invalid cog name given, " ++ cog ++ ".")%string].
Proof.
  intros Hall Hunk.
  assert (Hex : existsb (fun n => String.eqb n "all") cogs = false).
  { destruct (existsb (fun n => String.eqb n "all") cogs) eqn:E; [|reflexivity].
    apply existsb_exists in E. destruct E as [n [Hn Heq]].
    apply String.eqb_eq in Heq. subst n. contradiction. }
  destruct (resolve_cogs_unknown cogs Hunk [] w) as [cog [Hin [Hreg Hrun]]].
  exists cog. split; [exact Hin | split; [exact Hreg |]].
  unfold convertjson, resolve. rewrite Hex. run_monad. rewrite Hrun. reflexivity.
Qed.


(** *** C2: the sequence of units halts on the first failure *)

Lemma run_migrator_completes (m : migrator) (n : string) (w w' : World) :
  mig_run m w = (Ok tt, w') ->
  run_migrator (m, n) w
  = mkRes (Ok false) w' (completed_trace [(m, n)]).
Proof.
  intros Hrun. unfold run_migrator, echo. run_monad. rewrite Hrun. reflexivity.
Qed.

Lemma run_migrator_fails (m : migrator) (n : string) (w w' : World) (e : exn) :
  mig_run m w = (Raise e, w') -> is_Exception e = true ->
  run_migrator (m, n) w
  = mkRes (Ok true) w'
      [Migrate (mig_name m);
       Echo true ("migrator " ++ mig_name m ++ " has failed, terminating"
                  ++ pystr.nl ++ format_exc e)%string].
Proof.
  intros Hrun He. unfold run_migrator, echo_err. run_monad.
  rewrite Hrun. cbn [res world trace]. rewrite He. reflexivity.
Qed.

Lemma for_in_return_completed (pre : list (migrator * string)) (w w' : World) :
  run_all_ok pre w w' ->
  forall rest,
    for_in_return (pre ++ rest) run_migrator w
    = mkRes (res (for_in_return rest run_migrator w'))
            (world (for_in_return rest run_migrator w'))
            (completed_trace pre ++ trace (for_in_return rest run_migrator w')).
Proof.
  induction 1 as [w|m n pre w w' w'' Hm Hpre IH]; intros rest.
  - simpl. destruct (for_in_return rest run_migrator w). reflexivity.
  - cbn [app for_in_return].
    rewrite (bind_ok _ _ _ _ _ _ (run_migrator_completes m n w w' Hm)).
    rewrite IH. reflexivity.
Qed.

(** C2: when the units before [uk] have completed and [uk] raises, the
    command prints that the migrator named [uk.__name__] has failed,
    with the failure, and returns: the record of the run ends there, so no
    later unit is started.  The world it leaves is the one [uk] left,
    reached from the world the completed units built on top of the schema
    phase: nothing is reverted. *)
Theorem convertjson_halts_on_failure
  (cogs : list string) (pre post : list (migrator * string))
  (uk : migrator) (nk : string) (e : exn)
  (w w1 w2 w3 w4 : World) (tr1 tr2 : list event) :
  resolve cogs w = mkRes (Ok (Some (pre ++ (uk, nk) :: post))) w1 tr1 ->
  convertjson_setup (pre ++ (uk, nk) :: post) w1 = mkRes (Ok (Some tt)) w2 tr2 ->
  run_all_ok pre w2 w3 ->
  mig_run uk w3 = (Raise e, w4) ->
  is_Exception e = true ->
  convertjson cogs w
  = mkRes (Ok tt) w4
      (tr1 ++ tr2 ++ completed_trace pre
       ++ [Migrate (mig_name uk);
           Echo true ("migrator " ++ mig_name uk ++ " has failed, terminating"
                      ++ pystr.nl ++ format_exc e)%string]).
Proof.
  intros Hres Hsetup Hpre Huk He.
  unfold convertjson.
  rewrite (bind_ok _ _ _ _ _ _ Hres), (bind_ok _ _ _ _ _ _ Hsetup).
  rewrite (bind_ok _ _ w2 true w4
             (completed_trace pre
              ++ [Migrate (mig_name uk);
                  Echo true ("migrator " ++ mig_name uk ++ " has failed, terminating"
                             ++ pystr.nl ++ format_exc e)%string])).
  - unfold ret. cbn [res world trace]. rewrite app_nil_r. reflexivity.
  - rewrite (for_in_return_completed pre w2 w3 Hpre).
    cbn [for_in_return].
    rewrite (bind_ok _ _ _ _ _ _ (run_migrator_fails uk nk w3 w4 e Huk He)).
    unfold ret. cbn [res world trace]. rewrite app_nil_r. reflexivity.
Qed.


(** *** C4: a failing table does not stop [initdb] *)

Lemma for_in_app {A} (body : A -> M unit) (l1 l2 : list A) :
  forall (w w1 : World) (tr1 : list event),
    for_in l1 body w = mkRes (Ok tt) w1 tr1 ->
    for_in (l1 ++ l2) body w
    = mkRes (res (for_in l2 body w1)) (world (for_in l2 body w1))
            (tr1 ++ trace (for_in l2 body w1)).
Proof.
  induction l1 as [|x l1 IH]; intros w w1 tr1 Hrun.
  - cbn in Hrun. injection Hrun as <- <-. cbn [app]. apply eq_sym, res_eta.
  - cbn [app for_in] in *. unfold bind in *.
    destruct (body x w) as [[[]|e] wx trx]; cbn [res world trace] in *.
    + destruct (for_in l1 body wx) as [rr wr trr] eqn:Hrest.
      cbn [res world trace] in Hrun. injection Hrun as -> <- <-.
      rewrite (IH wx wr trr Hrest). cbn [res world trace].
      rewrite app_assoc. reflexivity.
    + discriminate.
Qed.

Lemma initdb_table_created (quiet : bool) (t : Table) (w w' : World) :
  table_create t (negb quiet) w = (Ok tt, w') ->
  initdb_table quiet t w
  = mkRes (Ok tt) w'
      [TableCreate (tablename t) (negb quiet);
       Echo false ("[" ++ table_module t
                   ++ "] Processing creation or migration for "
                   ++ tablename t ++ " complete.")%string].
Proof.
  intros Hc. unfold initdb_table.
  rewrite (try_ok _ _ _ _ _ _ _ _ (call_run _ _ _ _ _ Hc)). reflexivity.
Qed.

Lemma initdb_table_failed (quiet : bool) (t : Table) (w w' : World) (e : exn) :
  table_create t (negb quiet) w = (Raise e, w') -> is_Exception e = true ->
  initdb_table quiet t w
  = mkRes (Ok tt) w'
      [TableCreate (tablename t) (negb quiet);
       Echo true ("Could not create " ++ tablename t ++ "."
                  ++ pystr.nl ++ format_exc e)%string].
Proof.
  intros Hc He. unfold initdb_table.
  rewrite (try_caught _ _ _ _ _ _ _ _ (call_run _ _ _ _ _ Hc) He). reflexivity.
Qed.

(** The relation tells what the loop does. *)
Lemma tables_processed_run (quiet : bool) (tables : list Table) (w w' : World)
  (tr : list event) :
  tables_processed (negb quiet) tables w w' tr ->
  for_in tables (initdb_table quiet) w = mkRes (Ok tt) w' tr.
Proof.
  induction 1 as [w|t rest w w' w'' tr Hc Hrest IH|t rest w w' w'' tr e Hc He Hrest IH].
  - reflexivity.
  - cbn [for_in].
    rewrite (bind_ok _ _ _ _ _ _ (initdb_table_created quiet t w w' Hc)).
    rewrite IH. reflexivity.
  - cbn [for_in].
    rewrite (bind_ok _ _ _ _ _ _ (initdb_table_failed quiet t w w' e Hc He)).
    rewrite IH. reflexivity.
Qed.

(** When no [create] raises outside [Exception], every table of the list
    is processed, whatever the world the loop starts from. *)
Lemma tables_processed_total (verbose : bool) (tables : list Table) :
  (forall t w e, In t tables ->
     fst (table_create t verbose w) = Raise e -> is_Exception e = true) ->
  forall w, exists w' tr, tables_processed verbose tables w w' tr.
Proof.
  induction tables as [|t tables IH]; intros Hexc w.
  - exists w, []. constructor.
  - assert (Hrest : forall t' w' e', In t' tables ->
              fst (table_create t' verbose w') = Raise e' ->
              is_Exception e' = true).
    { intros t' w' e' Hin. apply Hexc. right. exact Hin. }
    destruct (table_create t verbose w) as [[[]|e] wt] eqn:Hc.
    + destruct (IH Hrest wt) as [w' [tr Hp]].
      eexists. eexists. eapply processed_created; eassumption.
    + assert (He : is_Exception e = true).
      { apply (Hexc t w e); [left; reflexivity | rewrite Hc; reflexivity]. }
      destruct (IH Hrest wt) as [w' [tr Hp]].
      eexists. eexists. eapply processed_failed; eassumption.
Qed.

Lemma tables_processed_created (verbose : bool) (tables : list Table)
  (w w' : World) (tr : list event) :
  tables_processed verbose tables w w' tr -> created tr = map tablename tables.
Proof.
  induction 1 as [w|t rest w w' w'' tr Hc Hrest IH|t rest w w' w'' tr e Hc He Hrest IH].
  - reflexivity.
  - unfold created in *. cbn. rewrite IH. reflexivity.
  - unfold created in *. cbn. rewrite IH. reflexivity.
Qed.

(** C4: once [initdb] has its pool and has imported the extensions, a
    registered table [t] whose [create] raises is reported on stderr under
    its [__tablename__], and the command goes on: every table registered
    after [t] is processed in order, its [create] run from the world the
    tables before it left, [t] included, and reported in its turn; the
    command returns normally with the world the last of them left. *)
Theorem initdb_failure_isolated
  (extension : list string) (quiet : bool) (pre post : list Table) (t : Table)
  (e : exn) (w w0 wi w1 w2 : World) (tri tr1 : list event) :
  Table_create_pool w = (Ok tt, w0) ->
  for_in (initdb_extensions extension) initdb_import w0 = mkRes (Ok tt) wi tri ->
  all_tables (w_proc wi) = pre ++ t :: post ->
  tables_processed (negb quiet) pre wi w1 tr1 ->
  table_create t (negb quiet) w1 = (Raise e, w2) ->
  is_Exception e = true ->
  (forall t' w' e', In t' post ->
     fst (table_create t' (negb quiet) w') = Raise e' -> is_Exception e' = true) ->
  exists w3 tr3,
    initdb extension quiet w
    = mkRes (Ok tt) w3
        (TableCreatePool :: tri ++ tr1
         ++ [TableCreate (tablename t) (negb quiet);
             Echo true ("Could not create " ++ tablename t ++ "."
                        ++ pystr.nl ++ format_exc e)%string]
         ++ tr3)
    /\ tables_processed (negb quiet) post w2 w3 tr3
    /\ created tr3 = map tablename post.
Proof.
  intros Hpool Himp Htabs Hpre Hc He Hpost.
  destruct (tables_processed_total (negb quiet) post Hpost w2) as [w3 [tr3 Hproc]].
  exists w3, tr3. split; [|split; [exact Hproc|]].
  - unfold initdb.
    rewrite (try_ok _ _ _ _ _ _ _ _ (call_run _ _ _ _ _ Hpool)).
    rewrite (bind_ok _ _ _ _ _ _ Himp).
    assert (Hreg : registered_tables wi = mkRes (Ok (pre ++ t :: post)) wi []).
    { unfold registered_tables. rewrite Htabs. reflexivity. }
    rewrite (bind_ok _ _ _ _ _ _ Hreg).
    rewrite (for_in_app _ pre (t :: post) wi w1 tr1
               (tables_processed_run quiet pre wi w1 tr1 Hpre)).
    cbn [for_in].
    rewrite (bind_ok _ _ _ _ _ _ (initdb_table_failed quiet t w1 w2 e Hc He)).
    rewrite (tables_processed_run quiet post w2 w3 tr3 Hproc).
    cbn [res world trace app]. reflexivity.
  - exact (tables_processed_created _ _ _ _ _ Hproc).
Qed.

(** *** The drop command *)

Lemma on_db_run {A} (op : action DB A) (w : World) (r : result A) (d : DB) :
  op (w_db w) = (r, d) -> on_db op w = (r, mkWorld d (w_fs w) (w_proc w)).
Proof. intros Hop. unfold on_db. rewrite Hop. reflexivity. Qed.

Lemma confirm_run (text : string) (w : World) (a : bool) (p : PROC) :
  click_confirm text (w_proc w) = (a, p) ->
  confirm_or_abort text w
  = mkRes (if a then Ok tt else Raise Abort)
          (mkWorld (w_db w) (w_fs w) p) [Confirm text a].
Proof. intros Hc. unfold confirm_or_abort. rewrite Hc. reflexivity. Qed.

Lemma remove_database_unreachable (name : string) (w : World) (e : exn) (d : DB) :
  asyncpg_connect (w_db w) = (Raise e, d) ->
  remove_database name w = mkRes (Ok tt) (mkWorld d (w_fs w) (w_proc w)) [Connect].
Proof.
  intros Hc. unfold remove_database.
  rewrite (try_caught _ _ _ _ _ _ _ _
             (call_run _ _ _ _ _ (on_db_run _ _ _ _ Hc)) eq_refl).
  reflexivity.
Qed.

Lemma remove_database_rejected (name : string) (w : World) (e : exn) (d1 d2 : DB) :
  asyncpg_connect (w_db w) = (Ok tt, d1) ->
  con_execute (drop_table name) d1 = (Raise e, d2) ->
  remove_database name w
  = mkRes (Raise e) (mkWorld d2 (w_fs w) (w_proc w))
          [Connect; Execute (drop_table name)].
Proof.
  intros Hc Hx. unfold remove_database.
  rewrite (try_ok _ _ _ _ _ _ _ _ (call_run _ _ _ _ _ (on_db_run _ _ _ _ Hc))).
  assert (Hrun : call (Execute (drop_table name)) (on_db (con_execute (drop_table name)))
                   (mkWorld d1 (w_fs w) (w_proc w))
                 = mkRes (Raise e) (mkWorld d2 (w_fs w) (w_proc w))
                         [Execute (drop_table name)]).
  { apply call_run. apply (on_db_run _ (mkWorld d1 (w_fs w) (w_proc w))). exact Hx. }
  rewrite (bind_raise _ _ _ _ _ _ Hrun). reflexivity.
Qed.


(** The existence checks of the store phase: what they yield when they
    return, and how the command ends when one of them raises. *)
Lemma files_missing_returns (migration current : pathlib.PurePath) (w : World)
  (em ec : bool) :
  checks_return migration current (w_fs w) em ec ->
  files_missing migration current w
  = mkRes (Ok (negb (em && ec))) w
          (Exists (pathlib.str migration)
           :: if em then [Exists (pathlib.str current)] else []).
Proof.
  intros [Hm Hc]. unfold files_missing, exists_, bind, ret. cbn [res world trace].
  rewrite Hm. destruct em; cbn [negb andb res world trace app].
  - rewrite (Hc eq_refl). reflexivity.
  - reflexivity.
Qed.

Lemma files_missing_raises_first (migration current : pathlib.PurePath) (w : World)
  (e : exn) :
  path_exists migration (w_fs w) = Raise e ->
  files_missing migration current w
  = mkRes (Raise e) w [Exists (pathlib.str migration)].
Proof.
  intros Hm. unfold files_missing, exists_, bind. cbn [res world trace].
  rewrite Hm. reflexivity.
Qed.

Lemma files_missing_raises_second (migration current : pathlib.PurePath) (w : World)
  (e : exn) :
  path_exists migration (w_fs w) = Ok true ->
  path_exists current (w_fs w) = Raise e ->
  files_missing migration current w
  = mkRes (Raise e) w [Exists (pathlib.str migration); Exists (pathlib.str current)].
Proof.
  intros Hm Hc. unfold files_missing, exists_, bind. cbn [res world trace].
  rewrite Hm. cbn [negb res world trace]. rewrite Hc. reflexivity.
Qed.

Lemma dropdb_store_raises (migration current : pathlib.PurePath) (name : string)
  (w : World) (e : exn) (tr : list event) :
  files_missing migration current w = mkRes (Raise e) w tr ->
  dropdb_store migration current name w = mkRes (Raise e) w tr.
Proof.
  intros Hmiss. unfold dropdb_store. rewrite (bind_raise _ _ _ _ _ _ Hmiss).
  reflexivity.
Qed.

Lemma unlink_or_warn_run (p : pathlib.PurePath) (warning : string) (w : World) :
  exists tr,
    unlink_or_warn p warning w
    = mkRes (Ok tt)
            (mkWorld (w_db w) (snd (path_unlink p (w_fs w))) (w_proc w))
            (Unlink (pathlib.str p) :: tr)
    /\ Forall store_event tr.
Proof.
  unfold unlink_or_warn, unlink, try_except_else, call, on_fs.
  destruct (path_unlink p (w_fs w)) as [[[]|e] f]; cbn [res world trace snd].
  - exists []. split; [reflexivity | constructor].
  - eexists. split; [reflexivity | repeat constructor].
Qed.

(** Once the existence checks have returned, the store phase runs to its
    last line whatever it finds: both files are unlinked in turn, the
    database is not touched, and all it prints goes to stdout. *)
Lemma dropdb_store_run (migration current : pathlib.PurePath) (name : string)
  (w : World) (em ec : bool) :
  checks_return migration current (w_fs w) em ec ->
  res (dropdb_store migration current name w) = Ok tt
  /\ w_db (world (dropdb_store migration current name w)) = w_db w
  /\ w_fs (world (dropdb_store migration current name w))
     = snd (path_unlink current (snd (path_unlink migration (w_fs w))))
  /\ exists tr,
       trace (dropdb_store migration current name w)
       = tr ++ [Echo false ("successfully removed " ++ name ++ " database")%string]
       /\ In (Unlink (pathlib.str migration)) tr
       /\ In (Unlink (pathlib.str current)) tr
       /\ Forall store_event tr.
Proof.
  intros Hchecks.
  pose proof (files_missing_returns migration current w em ec Hchecks) as Hmiss.
  set (b := negb (em && ec)) in *.
  set (tre := Exists (pathlib.str migration)
              :: (if em then [Exists (pathlib.str current)] else [])) in *.
  assert (Hte : Forall store_event tre).
  { unfold tre. destruct em; repeat constructor. }
  destruct (unlink_or_warn_run migration "warning: could not delete migration file" w)
    as [tr1 [Hu1 Ht1]].
  set (w1 := mkWorld (w_db w) (snd (path_unlink migration (w_fs w))) (w_proc w)) in *.
  destruct (unlink_or_warn_run current
              "warning: could not delete current migration file" w1)
    as [tr2 [Hu2 Ht2]].
  assert (Hwarn : exists trw,
            (if b then echo "warning: could not find the appropriate files."
             else ret tt) w = mkRes (Ok tt) w trw
            /\ Forall store_event trw).
  { destruct b; eexists; (split; [reflexivity | repeat constructor]). }
  destruct Hwarn as [trw [Hwarn Htw]].
  unfold dropdb_store.
  rewrite (bind_ok _ _ _ _ _ _ Hmiss), (bind_ok _ _ _ _ _ _ Hwarn),
    (bind_ok _ _ _ _ _ _ Hu1), (bind_ok _ _ _ _ _ _ Hu2).
  unfold echo, emit. cbn [res world trace w_db w_fs w_proc].
  split; [reflexivity|]. split; [reflexivity|]. split; [reflexivity|].
  exists (tre ++ trw ++ (Unlink (pathlib.str migration) :: tr1)
          ++ (Unlink (pathlib.str current) :: tr2)).
  split; [|split; [|split]].
  - rewrite <- !app_assoc. reflexivity.
  - apply in_or_app. right. apply in_or_app. right. left. reflexivity.
  - apply in_or_app. right. apply in_or_app. right. apply in_or_app. right.
    left. reflexivity.
  - repeat (apply Forall_app; split); try assumption;
      (constructor; [exact I | assumption]).
Qed.


Lemma dropdb_confirmed (name : string) (quiet : bool) (w : World)
  (migration current : pathlib.PurePath) (p1 : PROC) :
  dropdb_paths name = Ok (migration, current) ->
  click_confirm confirm_text (w_proc w) = (true, p1) ->
  dropdb name quiet w
  = let r := try_except_else is_Exception
               (remove_database name)
               (fun e => echo_err ("could not delete the database"
                                   ++ pystr.nl ++ format_exc e)%string)
               (fun _ => dropdb_store migration current name)
               (mkWorld (w_db w) (w_fs w) p1) in
    mkRes (res r) (world r) (Confirm confirm_text true :: trace r).
Proof.
  intros Hp Hc. unfold dropdb.
  assert (Hpaths : of_result (dropdb_paths name) w = mkRes (Ok (migration, current)) w []).
  { unfold of_result. rewrite Hp. reflexivity. }
  rewrite (bind_ok _ _ _ _ _ _ Hpaths).
  rewrite (bind_ok _ _ _ _ _ _ (confirm_run _ _ _ _ Hc)).
  reflexivity.
Qed.

(** C5: whatever destructive action a run of [dropdb] records (a
    statement sent to the database, a file unlinked), the run began with
    the operator answering yes to the prompt; and when the operator
    declines, the command aborts with the database and the files as they
    were. *)
Theorem dropdb_needs_confirmation (name : string) (quiet : bool) (w : World) :
  (forall ev, In ev (trace (dropdb name quiet w)) -> destructive ev = true ->
     exists rest, trace (dropdb name quiet w) = Confirm confirm_text true :: rest)
  /\ (fst (click_confirm confirm_text (w_proc w)) = false ->
      (exists e, res (dropdb name quiet w) = Raise e)
      /\ w_db (world (dropdb name quiet w)) = w_db w
      /\ w_fs (world (dropdb name quiet w)) = w_fs w
      /\ forall ev, In ev (trace (dropdb name quiet w)) -> destructive ev = false).
Proof.
  destruct (dropdb_paths name) as [[migration current]|e] eqn:Hp.
  - destruct (click_confirm confirm_text (w_proc w)) as [[|] p1] eqn:Hc.
    + rewrite (dropdb_confirmed name quiet w migration current p1 Hp Hc).
      cbn [res world trace fst]. split.
      * intros ev _ _. eexists. reflexivity.
      * discriminate.
    + assert (Hrun : dropdb name quiet w
                     = mkRes (Raise Abort) (mkWorld (w_db w) (w_fs w) p1)
                             [Confirm confirm_text false]).
      { unfold dropdb.
        assert (Hpaths : of_result (dropdb_paths name) w
                         = mkRes (Ok (migration, current)) w []).
        { unfold of_result. rewrite Hp. reflexivity. }
        rewrite (bind_ok _ _ _ _ _ _ Hpaths).
        rewrite (bind_raise _ _ _ _ _ _ (confirm_run _ _ _ _ Hc)). reflexivity. }
      rewrite Hrun. cbn [res world trace w_db w_fs]. split.
      * intros ev [<-|[]]. discriminate.
      * intros _. split; [eexists; reflexivity|]. split; [reflexivity|].
        split; [reflexivity|]. intros ev [<-|[]]. reflexivity.
  - assert (Hrun : dropdb name quiet w = mkRes (Raise e) w []).
    { unfold dropdb.
      assert (Hpaths : of_result (dropdb_paths name) w = mkRes (Raise e) w []).
      { unfold of_result. rewrite Hp. reflexivity. }
      rewrite (bind_raise _ _ _ _ _ _ Hpaths). reflexivity. }
    rewrite Hrun. cbn [res world trace]. split.
    + intros ev [].
    + intros _. split; [eexists; reflexivity|]. split; [reflexivity|].
      split; [reflexivity|]. intros ev [].
Qed.

(** C9: when the connection succeeds and [DROP TABLE] raises, [dropdb]
    reports the failure on stderr and returns: the run ends with that
    report, no file was looked for or unlinked, and the file system is as
    it was. *)
Theorem dropdb_drop_failure_keeps_store (name : string) (quiet : bool) (w : World)
  (migration current : pathlib.PurePath) (p1 : PROC) (d1 d2 : DB) (e : exn) :
  dropdb_paths name = Ok (migration, current) ->
  click_confirm confirm_text (w_proc w) = (true, p1) ->
  asyncpg_connect (w_db w) = (Ok tt, d1) ->
  con_execute (drop_table name) d1 = (Raise e, d2) ->
  is_Exception e = true ->
  dropdb name quiet w
  = mkRes (Ok tt) (mkWorld d2 (w_fs w) p1)
      [Confirm confirm_text true; Connect; Execute (drop_table name);
       Echo true ("could not delete the database"
                  ++ pystr.nl ++ format_exc e)%string].
Proof.
  intros Hp Hc Hcon Hx He.
  rewrite (dropdb_confirmed name quiet w migration current p1 Hp Hc).
  rewrite (try_caught _ _ _ _ _ _ _ _
             (remove_database_rejected name (mkWorld (w_db w) (w_fs w) p1)
                e d1 d2 Hcon Hx) He).
  reflexivity.
Qed.

(** C10 (amended): when the connection fails, whatever the failure,
    nothing is printed about it and no statement is sent; the database is
    as the failed connection left it and the command goes on to the store
    phase.  When the existence checks of line 138 return, it unlinks the
    history file and the current file and ends with the line that reports
    the removal.  When one of them raises, which nothing catches, the
    command ends with that exception and no file was unlinked. *)
Theorem dropdb_connect_failure_purges_store (name : string) (quiet : bool)
  (w : World) (migration current : pathlib.PurePath) (p1 : PROC) (d1 : DB)
  (e : exn) :
  dropdb_paths name = Ok (migration, current) ->
  click_confirm confirm_text (w_proc w) = (true, p1) ->
  asyncpg_connect (w_db w) = (Raise e, d1) ->
  w_db (world (dropdb name quiet w)) = d1
  /\ (forall ev, In ev (trace (dropdb name quiet w)) ->
        match ev with
        | Execute _ | Echo true _ => False
        | _ => True
        end)
  /\ (forall em ec, checks_return migration current (w_fs w) em ec ->
        res (dropdb name quiet w) = Ok tt
        /\ w_fs (world (dropdb name quiet w))
           = snd (path_unlink current (snd (path_unlink migration (w_fs w))))
        /\ exists tr,
             trace (dropdb name quiet w)
             = Confirm confirm_text true :: Connect :: tr
               ++ [Echo false ("successfully removed " ++ name ++ " database")%string]
             /\ In (Unlink (pathlib.str migration)) tr
             /\ In (Unlink (pathlib.str current)) tr
             /\ Forall store_event tr)
  /\ (forall e', path_exists migration (w_fs w) = Raise e' ->
        dropdb name quiet w
        = mkRes (Raise e') (mkWorld d1 (w_fs w) p1)
            [Confirm confirm_text true; Connect; Exists (pathlib.str migration)])
  /\ (forall e', path_exists migration (w_fs w) = Ok true ->
        path_exists current (w_fs w) = Raise e' ->
        dropdb name quiet w
        = mkRes (Raise e') (mkWorld d1 (w_fs w) p1)
            [Confirm confirm_text true; Connect; Exists (pathlib.str migration);
             Exists (pathlib.str current)]).
Proof.
  intros Hp Hc Hcon.
  rewrite (dropdb_confirmed name quiet w migration current p1 Hp Hc).
  rewrite (try_ok _ _ _ _ _ _ _ _
             (remove_database_unreachable name (mkWorld (w_db w) (w_fs w) p1)
                e d1 Hcon)).
  cbn [res world trace w_db w_fs w_proc].
  set (w1 := mkWorld d1 (w_fs w) p1).
  assert (Hcases : (exists em ec, checks_return migration current (w_fs w) em ec)
                   \/ (exists e', path_exists migration (w_fs w) = Raise e')
                   \/ (exists e', path_exists migration (w_fs w) = Ok true
                                  /\ path_exists current (w_fs w) = Raise e')).
  { unfold checks_return.
    destruct (path_exists migration (w_fs w)) as [[|]|e1] eqn:Hm.
    - destruct (path_exists current (w_fs w)) as [ec|e2] eqn:Hcur.
      + left. exists true, ec. split; [reflexivity | intros _; reflexivity].
      + right. right. exists e2. split; reflexivity.
    - left. exists false, false. split; [reflexivity | discriminate].
    - right. left. exists e1. reflexivity. }
  assert (Hfirst : forall e', path_exists migration (w_fs w) = Raise e' ->
            dropdb_store migration current name w1
            = mkRes (Raise e') w1 [Exists (pathlib.str migration)]).
  { intros e' Hm. apply dropdb_store_raises.
    apply (files_missing_raises_first migration current w1 e' Hm). }
  assert (Hsecond : forall e', path_exists migration (w_fs w) = Ok true ->
            path_exists current (w_fs w) = Raise e' ->
            dropdb_store migration current name w1
            = mkRes (Raise e') w1
                [Exists (pathlib.str migration); Exists (pathlib.str current)]).
  { intros e' Hm Hcur. apply dropdb_store_raises.
    apply (files_missing_raises_second migration current w1 e' Hm Hcur). }
  split; [|split; [|split; [|split]]].
  - destruct Hcases as [[em [ec Hch]]|[[e' Hm]|[e' [Hm Hcur]]]].
    + destruct (dropdb_store_run migration current name w1 em ec Hch) as [_ [Hdb _]].
      exact Hdb.
    + rewrite (Hfirst e' Hm). reflexivity.
    + rewrite (Hsecond e' Hm Hcur). reflexivity.
  - intros ev [<-|[<-|Hin]]; [exact I | exact I |]. cbn [app] in Hin.
    destruct Hcases as [[em [ec Hch]]|[[e' Hm]|[e' [Hm Hcur]]]].
    + destruct (dropdb_store_run migration current name w1 em ec Hch)
        as [_ [_ [_ [tr [Htr [_ [_ Hall]]]]]]].
      rewrite Htr in Hin. apply in_app_or in Hin. destruct Hin as [Hin|[<-|[]]].
      * rewrite Forall_forall in Hall. specialize (Hall ev Hin).
        unfold store_event in Hall.
        destruct ev as [err msg| | | | | | | | | | | |];
          try exact I; exact Hall.
      * exact I.
    + rewrite (Hfirst e' Hm) in Hin. destruct Hin as [<-|[]]. exact I.
    + rewrite (Hsecond e' Hm Hcur) in Hin. destruct Hin as [<-|[<-|[]]]; exact I.
  - intros em ec Hch.
    destruct (dropdb_store_run migration current name w1 em ec Hch)
      as [Hres [_ [Hfs [tr [Htr Hin]]]]].
    split; [exact Hres|]. split; [exact Hfs|].
    exists tr. split; [|exact Hin]. rewrite Htr. reflexivity.
  - intros e' Hm. rewrite (Hfirst e' Hm). reflexivity.
  - intros e' Hm Hcur. rewrite (Hsecond e' Hm Hcur). reflexivity.
Qed.


(** *** C3: the order of the phases of an import run *)

Lemma phase_block_nil (lo hi : nat) : phase_block lo hi [].
Proof. split; constructor. Qed.

Lemma phase_block_one (lo hi : nat) (ev : event) :
  (forall n, phase ev = Some n -> lo <= n <= hi) -> phase_block lo hi [ev].
Proof.
  intros Hev. split.
  - constructor; constructor.
  - constructor; [exact Hev | constructor].
Qed.

Lemma phase_block_app (a b c d : nat) (l1 l2 : list event) :
  a <= b -> b <= c -> c <= d ->
  phase_block a b l1 -> phase_block c d l2 -> phase_block a d (l1 ++ l2).
Proof.
  intros Hab Hbc Hcd [Hs1 Hb1] [Hs2 Hb2]. split.
  - induction Hs1 as [|q l1 Hs1 IH Hq]; cbn [app].
    + exact Hs2.
    + constructor.
      * apply IH. apply Forall_inv_tail in Hb1. exact Hb1.
      * apply Forall_app. split; [exact Hq|].
        apply Forall_inv in Hb1. eapply Forall_impl; [|exact Hb2].
        intros p Hp n m Hn Hm. specialize (Hb1 n Hn). specialize (Hp m Hm). lia.
  - apply Forall_app. split.
    + eapply Forall_impl; [|exact Hb1]. intros ev Hev n Hn. specialize (Hev n Hn). lia.
    + eapply Forall_impl; [|exact Hb2]. intros ev Hev n Hn. specialize (Hev n Hn). lia.
Qed.

Lemma phase_block_weaken (a b a' b' : nat) (tr : list event) :
  a' <= a -> b <= b' -> phase_block a b tr -> phase_block a' b' tr.
Proof.
  intros Ha Hb [Hs Hbd]. split; [exact Hs|].
  eapply Forall_impl; [|exact Hbd]. intros ev Hev n Hn. specialize (Hev n Hn). lia.
Qed.

Lemma phase_block_bind {A B} (a b c d : nat) (m : M A) (f : A -> M B) (w : World) :
  a <= b -> b <= c -> c <= d ->
  phase_block a b (trace (m w)) ->
  (forall x w', phase_block c d (trace (f x w'))) ->
  phase_block a d (trace (bind m f w)).
Proof.
  intros Hab Hbc Hcd Hm Hf. unfold bind.
  destruct (m w) as [[x|e] w' tr]; cbn [res world trace] in *.
  - apply (phase_block_app a b c d); auto.
  - apply (phase_block_weaken a b); auto. lia.
Qed.

Lemma phase_block_try {A B} (a b c d : nat) (catches : exn -> bool) (body : M A)
  (handler : exn -> M B) (orelse : A -> M B) (w : World) :
  a <= b -> b <= c -> c <= d ->
  phase_block a b (trace (body w)) ->
  (forall e w', phase_block c d (trace (handler e w'))) ->
  (forall x w', phase_block c d (trace (orelse x w'))) ->
  phase_block a d (trace (try_except_else catches body handler orelse w)).
Proof.
  intros Hab Hbc Hcd Hm Hh Ho. unfold try_except_else.
  destruct (body w) as [[x|e] w' tr]; cbn [res world trace] in *.
  - apply (phase_block_app a b c d); auto.
  - destruct (catches e); cbn [res world trace].
    + apply (phase_block_app a b c d); auto.
    + apply (phase_block_weaken a b); auto. lia.
Qed.

Lemma phase_block_call {A} (lo hi : nat) (ev : event) (op : action World A) (w : World) :
  (forall n, phase ev = Some n -> lo <= n <= hi) ->
  phase_block lo hi (trace (call ev op w)).
Proof.
  intros Hev. unfold call. destruct (op w) as [r w']. cbn [trace].
  apply phase_block_one, Hev.
Qed.

Lemma phase_block_echo (lo hi : nat) (err : bool) (msg : string) (w : World) :
  phase_block lo hi (trace (emit (Echo err msg) w)).
Proof. apply phase_block_one. discriminate. Qed.

Lemma phase_block_for_in {A} (k : nat) (body : A -> M unit) (l : list A) :
  (forall x w, phase_block k k (trace (body x w))) ->
  forall w, phase_block k k (trace (for_in l body w)).
Proof.
  intros Hbody. induction l as [|x l IH]; intros w; cbn [for_in].
  - apply phase_block_nil.
  - apply (phase_block_bind k k k k); auto.
Qed.

Lemma phase_block_for_in_return {A} (k : nat) (body : A -> M bool) (l : list A) :
  (forall x w, phase_block k k (trace (body x w))) ->
  forall w, phase_block k k (trace (for_in_return l body w)).
Proof.
  intros Hbody. induction l as [|x l IH]; intros w; cbn [for_in_return].
  - apply phase_block_nil.
  - apply (phase_block_bind k k k k); auto.
    intros [|] w'; [apply phase_block_nil | apply IH].
Qed.

Lemma phase_block_initdb (extension : list string) (quiet : bool) (w : World) :
  phase_block 2 2 (trace (initdb extension quiet w)).
Proof.
  unfold initdb. apply (phase_block_try 2 2 2 2); auto.
  - apply phase_block_call. intros n [= <-]. lia.
  - intros e w'. apply phase_block_echo.
  - intros _ w'. apply (phase_block_bind 2 2 2 2); auto.
    + apply phase_block_for_in. intros ext w''. unfold initdb_import.
      apply (phase_block_try 2 2 2 2); auto.
      * apply phase_block_call. intros n [= <-]. lia.
      * intros e w3. apply phase_block_echo.
      * intros _ w3. apply phase_block_nil.
    + intros _ w''. apply (phase_block_bind 2 2 2 2); auto.
      * apply phase_block_nil.
      * intros tables w3. apply phase_block_for_in. intros t w4.
        unfold initdb_table. apply (phase_block_try 2 2 2 2); auto.
        -- apply phase_block_call. intros n [= <-]. lia.
        -- intros e w5. apply phase_block_echo.
        -- intros _ w5. apply phase_block_echo.
Qed.

Lemma phase_block_resolve (cogs : list string) (w : World) :
  phase_block 0 0 (trace (resolve cogs w)).
Proof.
  unfold resolve. destruct (existsb (fun n => String.eqb n "all") cogs).
  - apply (phase_block_bind 0 0 0 0); auto.
    + generalize (filter (fun attr => pystr.startswith attr "migrate_")
                         (dir data_migrators)).
      intros attrs. revert w. induction attrs as [|a attrs IH]; intros w.
      * apply phase_block_nil.
      * cbn [resolve_attrs]. apply (phase_block_bind 0 0 0 0); auto.
        -- apply phase_block_nil.
        -- intros elem w'. apply (phase_block_bind 0 0 0 0); auto.
           intros rest w''. apply phase_block_nil.
    + intros to_run w'. apply phase_block_nil.
  - generalize (@nil (migrator * string)). revert w.
    induction cogs as [|c cogs IH]; intros w to_run.
    + apply phase_block_nil.
    + cbn [resolve_cogs]. apply (phase_block_try 0 0 0 0); auto.
      * apply phase_block_nil.
      * intros e w'. apply (phase_block_bind 0 0 0 0); auto.
        -- apply phase_block_echo.
        -- intros _ w''. apply phase_block_nil.
Qed.

Lemma phase_block_setup (to_run : list (migrator * string)) (w : World) :
  phase_block 0 2 (trace (convertjson_setup to_run w)).
Proof.
  unfold convertjson_setup. apply (phase_block_try 0 0 1 2); auto.
  - apply phase_block_call. intros n [= <-]. lia.
  - intros e w'. apply (phase_block_bind 1 1 1 2); auto.
    + apply phase_block_echo.
    + intros _ w''. apply phase_block_nil.
  - intros _ w'. apply (phase_block_bind 1 1 1 2); auto.
    + apply phase_block_call. intros n [= <-]. lia.
    + intros user w''. apply (phase_block_bind 1 1 2 2); auto.
      * apply phase_block_echo.
      * intros _ w3. apply (phase_block_bind 2 2 2 2); auto.
        -- apply phase_block_initdb.
        -- intros _ w4. apply phase_block_nil.
Qed.

Lemma phase_block_units (to_run : list (migrator * string)) (w : World) :
  phase_block 3 3 (trace (for_in_return to_run run_migrator w)).
Proof.
  apply phase_block_for_in_return. intros [m n] w'.
  unfold run_migrator. apply (phase_block_try 3 3 3 3); auto.
  - apply phase_block_call. intros k [= <-]. lia.
  - intros e w''. apply (phase_block_bind 3 3 3 3); auto.
    + apply phase_block_echo.
    + intros _ w3. apply phase_block_nil.
  - intros _ w''. apply (phase_block_bind 3 3 3 3); auto.
    + apply phase_block_echo.
    + intros _ w3. apply phase_block_nil.
Qed.

Lemma phase_block_convertjson (cogs : list string) (w : World) :
  phase_block 0 3 (trace (convertjson cogs w)).
Proof.
  unfold convertjson. apply (phase_block_bind 0 0 0 3); auto with arith.
  - apply phase_block_resolve.
  - intros [to_run|] w'; [|apply phase_block_nil].
    apply (phase_block_bind 0 2 3 3); auto with arith.
    + apply phase_block_setup.
    + intros [[]|] w''; [|apply phase_block_nil].
      apply (phase_block_bind 3 3 3 3); auto.
      * apply phase_block_units.
      * intros _ w3. apply phase_block_nil.
Qed.

Lemma phase_le_in_order (tr : list event) :
  StronglySorted phase_le tr -> in_phase_order phase tr.
Proof.
  intros Hs l1 q l2 p n m Heq Hin Hq Hp. subst tr.
  induction l1 as [|x l1 IH]; cbn [app] in Hs.
  - apply StronglySorted_inv in Hs. destruct Hs as [_ Hall].
    rewrite Forall_forall in Hall. exact (Hall p Hin n m Hq Hp).
  - apply StronglySorted_inv in Hs. apply IH, Hs.
Qed.


Lemma convertjson_setup_run (to_run : list (migrator * string)) (w1 w2 w3 : World)
  (user : string * string) :
  asyncpg_create_pool w1 = (Ok tt, w2) ->
  client_start w2 = (Ok user, w3) ->
  convertjson_setup to_run w1
  = let r := initdb (map (fun '(_, name) => ("cogs." ++ name)%string) to_run) false w3 in
    mkRes (match res r with
           | Ok _ => Ok (Some tt)
           | Raise e => Raise e
           end)
          (world r)
          ([CreatePool; ClientStart;
            Echo false ("successfully booted up bot " ++ fst user
                        ++ " (ID: " ++ snd user ++ ")")%string]
           ++ trace r).
Proof.
  intros Hpool Hstart. unfold convertjson_setup.
  rewrite (try_ok _ _ _ _ _ _ _ _ (call_run _ _ _ _ _ Hpool)).
  rewrite (bind_ok _ _ _ _ _ _ (call_run _ _ _ _ _ Hstart)).
  unfold echo.
  rewrite (bind_ok _ _ w3 tt w3 [Echo false ("successfully booted up bot " ++ fst user
                        ++ " (ID: " ++ snd user ++ ")")%string]) by reflexivity.
  unfold bind, ret.
  destruct (initdb (map (fun '(_, name) => ("cogs." ++ name)%string) to_run) false w3)
    as [[[]|e] wi tri]; cbn [res world trace app]; rewrite ?app_nil_r; reflexivity.
Qed.

(** C3 (amended): an import run goes through its phases in the order:
    the connection pool, the session with the external service (opened
    and, once ready, closed), the schema ([initdb] on the modules
    [cogs.<name>] of the resolved units), the units.  No event of a phase
    is recorded after an event of a later one; and once the pool exists and
    the session has come and gone, what follows is the run of [initdb] on
    those modules, from the world the session left. *)
Theorem convertjson_phase_order (cogs : list string) (w : World) :
  in_phase_order phase (trace (convertjson cogs w))
  /\ forall to_run w1 tr1 w2 user w3,
       resolve cogs w = mkRes (Ok (Some to_run)) w1 tr1 ->
       asyncpg_create_pool w1 = (Ok tt, w2) ->
       client_start w2 = (Ok user, w3) ->
       exists rest,
         trace (convertjson cogs w)
         = tr1
           ++ [CreatePool; ClientStart;
               Echo false ("successfully booted up bot " ++ fst user
                           ++ " (ID: " ++ snd user ++ ")")%string]
           ++ trace (initdb (map (fun '(_, name) => ("cogs." ++ name)%string) to_run)
                            false w3)
           ++ rest.
Proof.
  split.
  - apply phase_le_in_order. apply (phase_block_convertjson cogs w).
  - intros to_run w1 tr1 w2 user w3 Hres Hpool Hstart.
    unfold convertjson. rewrite (bind_ok _ _ _ _ _ _ Hres). cbn [trace].
    unfold bind at 1. rewrite (convertjson_setup_run to_run w1 w2 w3 user Hpool Hstart).
    destruct (initdb (map (fun '(_, name) => ("cogs." ++ name)%string) to_run) false w3)
      as [[[]|e] wi tri]; cbn [res world trace].
    + eexists. rewrite <- !app_assoc. reflexivity.
    + exists []. rewrite app_nil_r. reflexivity.
Qed.


(** *** Further properties of [initdb] *)

(** X4: when the pool cannot be created, [initdb] reports it on stderr and
    returns: no module is imported and no table is created. *)
Theorem initdb_pool_failure (extension : list string) (quiet : bool)
  (w w' : World) (e : exn) :
  Table_create_pool w = (Raise e, w') ->
  is_Exception e = true ->
  initdb extension quiet w
  = mkRes (Ok tt) w'
      [TableCreatePool;
       Echo true ("Could not create PostgreSQL connection pool."
                  ++ pystr.nl ++ format_exc e)%string].
Proof.
  intros Hpool He. unfold initdb.
  rewrite (try_caught _ _ _ _ _ _ _ _ (call_run _ _ _ _ _ Hpool) He).
  reflexivity.
Qed.

Lemma initdb_import_loaded (ext : string) (w w' : World) :
  import_module ext w = (Ok tt, w') ->
  initdb_import ext w = mkRes (Ok tt) w' [ImportModule ext].
Proof.
  intros Hi. unfold initdb_import.
  rewrite (try_ok _ _ _ _ _ _ _ _ (call_run _ _ _ _ _ Hi)). reflexivity.
Qed.

Lemma initdb_import_failed (ext : string) (w w' : World) (e : exn) :
  import_module ext w = (Raise e, w') -> is_Exception e = true ->
  initdb_import ext w
  = mkRes (Ok tt) w'
      [ImportModule ext;
       Echo true ("Could not load " ++ ext ++ "."
                  ++ pystr.nl ++ format_exc e)%string].
Proof.
  intros Hi He. unfold initdb_import.
  rewrite (try_caught _ _ _ _ _ _ _ _ (call_run _ _ _ _ _ Hi) He). reflexivity.
Qed.

Lemma initdb_imports_all_started (exts : list string) :
  (forall ext w e, In ext exts ->
     fst (import_module ext w) = Raise e -> is_Exception e = true) ->
  forall w, exists w' tr,
    for_in exts initdb_import w = mkRes (Ok tt) w' tr
    /\ imported tr = exts.
Proof.
  induction exts as [|ext exts IH]; intros Hexc w.
  - exists w, []. split; reflexivity.
  - assert (Hrest : forall ext' w' e', In ext' exts ->
              fst (import_module ext' w') = Raise e' -> is_Exception e' = true).
    { intros ext' w' e' Hin. apply Hexc. right. exact Hin. }
    cbn [for_in].
    destruct (import_module ext w) as [[[]|e] wt] eqn:Hi.
    + destruct (IH Hrest wt) as [w' [tr [Hrun Him]]].
      eexists. eexists. split.
      * rewrite (bind_ok _ _ _ _ _ _ (initdb_import_loaded ext w wt Hi)).
        rewrite Hrun. reflexivity.
      * unfold imported in *. cbn. rewrite Him. reflexivity.
    + assert (He : is_Exception e = true).
      { apply (Hexc ext w e); [left; reflexivity | rewrite Hi; reflexivity]. }
      destruct (IH Hrest wt) as [w' [tr [Hrun Him]]].
      eexists. eexists. split.
      * rewrite (bind_ok _ _ _ _ _ _ (initdb_import_failed ext w wt e Hi He)).
        rewrite Hrun. reflexivity.
      * unfold imported in *. cbn. rewrite Him. reflexivity.
Qed.

(** X5: a module that cannot be imported does not stop [initdb]: once the
    pool exists, the import of every extension is started, in order, and
    the command goes on to create the tables registered by then. *)
Theorem initdb_import_failure_isolated (extension : list string) (quiet : bool)
  (w w0 : World) :
  Table_create_pool w = (Ok tt, w0) ->
  (forall ext w' e, In ext (initdb_extensions extension) ->
     fst (import_module ext w') = Raise e -> is_Exception e = true) ->
  exists wi tri,
    for_in (initdb_extensions extension) initdb_import w0 = mkRes (Ok tt) wi tri
    /\ imported tri = initdb_extensions extension
    /\ initdb extension quiet w
       = mkRes (res (for_in (all_tables (w_proc wi)) (initdb_table quiet) wi))
               (world (for_in (all_tables (w_proc wi)) (initdb_table quiet) wi))
               (TableCreatePool :: tri
                ++ trace (for_in (all_tables (w_proc wi)) (initdb_table quiet) wi)).
Proof.
  intros Hpool Hexc.
  destruct (initdb_imports_all_started _ Hexc w0) as [wi [tri [Hrun Him]]].
  exists wi, tri. split; [exact Hrun|]. split; [exact Him|].
  unfold initdb.
  rewrite (try_ok _ _ _ _ _ _ _ _ (call_run _ _ _ _ _ Hpool)).
  rewrite (bind_ok _ _ _ _ _ _ Hrun).
  assert (Hreg : registered_tables wi = mkRes (Ok (all_tables (w_proc wi))) wi [])
    by reflexivity.
  rewrite (bind_ok _ _ _ _ _ _ Hreg). reflexivity.
Qed.

(** *** Further properties of [convertjson] *)

Lemma resolve_cogs_registered (cogs : list string) :
  (forall cog, In cog cogs -> registered cog = true) ->
  forall (to_run : list (migrator * string)) (w : World),
  exists units,
    resolve_cogs cogs to_run w = mkRes (Ok (Some (to_run ++ units))) w []
    /\ map snd units = cogs
    /\ Forall (fun u => getattr data_migrators ("migrate_" ++ snd u)%string
                        = Ok (fst u)) units.
Proof.
  induction cogs as [|c cogs IH]; intros Hreg to_run w.
  - exists []. rewrite app_nil_r. split; [reflexivity|]. split; [reflexivity|constructor].
  - assert (Hc : registered c = true) by (apply Hreg; left; reflexivity).
    unfold registered in Hc.
    destruct (getattr data_migrators ("migrate_" ++ c)%string) as [v|e] eqn:Hg;
      [|discriminate].
    destruct (IH (fun cog Hin => Hreg cog (or_intror Hin)) (to_run ++ [(v, c)]) w)
      as [units [Hrun [Hnames Hunits]]].
    exists ((v, c) :: units). split; [|split].
    + cbn [resolve_cogs].
      assert (Hres : of_result (getattr data_migrators ("migrate_" ++ c)%string) w
                     = mkRes (Ok v) w []).
      { unfold of_result. rewrite Hg. reflexivity. }
      rewrite (try_ok _ _ _ _ _ _ _ _ Hres). rewrite Hrun.
      cbn [res world trace app]. rewrite <- app_assoc. reflexivity.
    + cbn [map snd]. rewrite Hnames. reflexivity.
    + constructor; [exact Hg | exact Hunits].
Qed.

(** X6: a request that names registered units only, without ["all"],
    resolves to those units in the order of the request, repetitions
    included, and touches nothing. *)
Theorem resolve_named (cogs : list string) (w : World) :
  ~ In "all"%string cogs ->
  (forall cog, In cog cogs -> registered cog = true) ->
  exists to_run,
    resolve cogs w = mkRes (Ok (Some to_run)) w []
    /\ map snd to_run = cogs
    /\ Forall (fun u => getattr data_migrators ("migrate_" ++ snd u)%string
                        = Ok (fst u)) to_run.
Proof.
  intros Hall Hreg.
  assert (Hex : existsb (fun n => String.eqb n "all") cogs = false).
  { destruct (existsb (fun n => String.eqb n "all") cogs) eqn:E; [|reflexivity].
    apply existsb_exists in E. destruct E as [n [Hn Heq]].
    apply String.eqb_eq in Heq. subst n. contradiction. }
  destruct (resolve_cogs_registered cogs Hreg [] w) as [units [Hrun Hrest]].
  exists units. split; [|exact Hrest].
  unfold resolve. rewrite Hex. exact Hrun.
Qed.

(** X7: when the pool cannot be created, [convertjson] reports it on
    stderr and returns: the session with the external service is not
    opened, [initdb] is not invoked and no unit runs. *)
Theorem convertjson_pool_failure (cogs : list string)
  (to_run : list (migrator * string)) (w w1 w2 : World) (tr1 : list event) (e : exn) :
  resolve cogs w = mkRes (Ok (Some to_run)) w1 tr1 ->
  asyncpg_create_pool w1 = (Raise e, w2) ->
  is_Exception e = true ->
  convertjson cogs w
  = mkRes (Ok tt) w2
      (tr1 ++ [CreatePool;
               Echo true ("Could not create PostgreSQL connection pool."
                          ++ pystr.nl ++ format_exc e)%string]).
Proof.
  intros Hres Hpool He. unfold convertjson.
  rewrite (bind_ok _ _ _ _ _ _ Hres).
  assert (Hsetup : convertjson_setup to_run w1
                   = mkRes (Ok None) w2
                       [CreatePool;
                        Echo true ("Could not create PostgreSQL connection pool."
                                   ++ pystr.nl ++ format_exc e)%string]).
  { unfold convertjson_setup.
    rewrite (try_caught _ _ _ _ _ _ _ _ (call_run _ _ _ _ _ Hpool) He).
    reflexivity. }
  rewrite (bind_ok _ _ _ _ _ _ Hsetup).
  unfold ret. cbn [res world trace]. rewrite app_nil_r. reflexivity.
Qed.

(** X8: a failure of [client.start] is not handled: it leaves
    [convertjson] as it was raised, whatever its class, before [initdb] is
    invoked and before any unit runs. *)
Theorem convertjson_start_failure (cogs : list string)
  (to_run : list (migrator * string)) (w w1 w2 w3 : World) (tr1 : list event)
  (e : exn) :
  resolve cogs w = mkRes (Ok (Some to_run)) w1 tr1 ->
  asyncpg_create_pool w1 = (Ok tt, w2) ->
  client_start w2 = (Raise e, w3) ->
  convertjson cogs w = mkRes (Raise e) w3 (tr1 ++ [CreatePool; ClientStart]).
Proof.
  intros Hres Hpool Hstart. unfold convertjson.
  rewrite (bind_ok _ _ _ _ _ _ Hres).
  assert (Hsetup : convertjson_setup to_run w1
                   = mkRes (Raise e) w3 [CreatePool; ClientStart]).
  { unfold convertjson_setup.
    rewrite (try_ok _ _ _ _ _ _ _ _ (call_run _ _ _ _ _ Hpool)).
    rewrite (bind_raise _ _ _ _ _ _ (call_run _ _ _ _ _ Hstart)).
    reflexivity. }
  rewrite (bind_raise _ _ _ _ _ _ Hsetup). reflexivity.
Qed.


Lemma for_in_return_all_completed (units : list (migrator * string)) (w w' : World) :
  run_all_ok units w w' ->
  for_in_return units run_migrator w = mkRes (Ok false) w' (completed_trace units).
Proof.
  induction 1 as [w|m n rest w w' w'' Hm Hrest IH].
  - reflexivity.
  - cbn [for_in_return].
    rewrite (bind_ok _ _ _ _ _ _ (run_migrator_completes m n w w' Hm)).
    rewrite IH. reflexivity.
Qed.

(** X9: when every unit completes, [convertjson] reports each of them as
    completed, in the order they were resolved, and returns normally with
    the world the last unit left. *)
Theorem convertjson_all_complete (cogs : list string)
  (to_run : list (migrator * string)) (w w1 w2 w3 : World) (tr1 tr2 : list event) :
  resolve cogs w = mkRes (Ok (Some to_run)) w1 tr1 ->
  convertjson_setup to_run w1 = mkRes (Ok (Some tt)) w2 tr2 ->
  run_all_ok to_run w2 w3 ->
  convertjson cogs w = mkRes (Ok tt) w3 (tr1 ++ tr2 ++ completed_trace to_run).
Proof.
  intros Hres Hsetup Hrun. unfold convertjson.
  rewrite (bind_ok _ _ _ _ _ _ Hres), (bind_ok _ _ _ _ _ _ Hsetup).
  rewrite (bind_ok _ _ _ _ _ _ (for_in_return_all_completed to_run w2 w3 Hrun)).
  unfold ret. cbn [res world trace]. rewrite app_nil_r. reflexivity.
Qed.



Lemma initdb_no_extension (quiet : bool) (w : World) :
  initdb [] quiet w = initdb initial_extensions quiet w.
Proof.
  unfold initdb, initdb_extensions. destruct initial_extensions; reflexivity.
Qed.

Lemma initdb_no_migrate (extension : list string) (quiet : bool) (w : World)
  (n : string) :
  ~ In (Migrate n) (trace (initdb extension quiet w)).
Proof.
  intros Hin. destruct (phase_block_initdb extension quiet w) as [_ Hall].
  rewrite Forall_forall in Hall. specialize (Hall _ Hin 3 eq_refl). lia.
Qed.

(** X11: [convertjson] without any name resolves to no unit, and the empty
    list of modules it hands to [initdb] stands for all of them: once the
    pool exists and the session has come and gone, the run is that of
    [initdb] on [initial_extensions], and no unit is started. *)
Theorem convertjson_no_cogs (w w2 w3 : World) (user : string * string) :
  asyncpg_create_pool w = (Ok tt, w2) ->
  client_start w2 = (Ok user, w3) ->
  convertjson [] w
  = mkRes (res (initdb initial_extensions false w3))
          (world (initdb initial_extensions false w3))
          ([CreatePool; ClientStart;
            Echo false ("successfully booted up bot " ++ fst user
                        ++ " (ID: " ++ snd user ++ ")")%string]
           ++ trace (initdb initial_extensions false w3))
  /\ forall n, ~ In (Migrate n) (trace (convertjson [] w)).
Proof.
  intros Hpool Hstart.
  assert (Hrun : convertjson [] w
                 = mkRes (res (initdb initial_extensions false w3))
                         (world (initdb initial_extensions false w3))
                         ([CreatePool; ClientStart;
                           Echo false ("successfully booted up bot " ++ fst user
                                       ++ " (ID: " ++ snd user ++ ")")%string]
                          ++ trace (initdb initial_extensions false w3))).
  { unfold convertjson.
    assert (Hres : resolve [] w = mkRes (Ok (Some [])) w []) by reflexivity.
    rewrite (bind_ok _ _ _ _ _ _ Hres).
    pose proof (convertjson_setup_run [] w w2 w3 user Hpool Hstart) as Hsetup.
    cbn [map] in Hsetup. rewrite initdb_no_extension in Hsetup.
    destruct (initdb initial_extensions false w3) as [[[]|e] wi tri];
      cbn [res world trace] in Hsetup |- *.
    - rewrite (bind_ok _ _ _ _ _ _ Hsetup). cbn [for_in_return].
      unfold bind, ret. cbn [res world trace app]. rewrite ?app_nil_r. reflexivity.
    - rewrite (bind_raise _ _ _ _ _ _ Hsetup). reflexivity. }
  split; [exact Hrun|].
  intros n Hin. rewrite Hrun in Hin. cbn [trace] in Hin.
  apply in_app_or in Hin. destruct Hin as [Hin|Hin].
  - repeat (destruct Hin as [Heq|Hin]; [discriminate|]). exact Hin.
  - exact (initdb_no_migrate _ _ _ _ Hin).
Qed.

(** [s.replace(old, new)] leaves a string without occurrence as it is, and
    passes over a matched occurrence without looking into it. *)
Lemma replace_from_absent (old new s : string) :
  occurs old s = false -> pystr.replace_from 0 old new s = s.
Proof.
  induction s as [|a s IH]; intros Hocc.
  - reflexivity.
  - cbn [occurs] in Hocc. apply orb_false_iff in Hocc. destruct Hocc as [Hp Hs].
    cbn [pystr.replace_from]. rewrite Hp, (IH Hs). reflexivity.
Qed.

Lemma replace_from_skip (old new p s : string) :
  pystr.replace_from (String.length p) old new (p ++ s)%string
  = match p with
    | EmptyString => pystr.replace_from 0 old new s
    | _ => pystr.replace_from 0 old new s
    end.
Proof.
  induction p as [|a p IH].
  - reflexivity.
  - cbn [String.append String.length pystr.replace_from]. rewrite IH.
    destruct p; reflexivity.
Qed.

Lemma prefix_append (p s : string) : String.prefix p (p ++ s)%string = true.
Proof.
  induction p as [|a p IH]; cbn.
  - destruct s; reflexivity.
  - destruct (ascii_dec a a) as [_|Hne]; [exact IH | contradiction].
Qed.

Lemma replace_leading (old new n : string) :
  old <> ""%string -> occurs old n = false ->
  pystr.replace (old ++ n)%string old new = (new ++ n)%string.
Proof.
  intros Hold Hocc. unfold pystr.replace.
  destruct old as [|a old']; [contradiction|].
  cbn [String.append pystr.replace_from].
  change (String a (old' ++ n)%string) with (String a old' ++ n)%string.
  rewrite prefix_append. cbn [String.length].
  replace (S (String.length old') - 1) with (String.length old') by lia.
  rewrite replace_from_skip.
  rewrite (replace_from_absent (String a old') new n Hocc).
  destruct old'; reflexivity.
Qed.

Lemma startswith_split (s p : string) :
  pystr.startswith s p = true -> exists n, s = (p ++ n)%string.
Proof.
  unfold pystr.startswith. revert s. induction p as [|a p IH]; intros s Hp.
  - exists s. reflexivity.
  - destruct s as [|b s]; cbn in Hp; [discriminate|].
    destruct (ascii_dec a b) as [<-|Hne]; [|discriminate].
    destruct (IH s Hp) as [n ->]. exists n. reflexivity.
Qed.

(** X12: when no declared unit carries a second [migrate_] inside its
    name, the names ["all"] resolves to are the names under which the same
    units are found one by one: for each resolved pair, the attribute
    [migrate_<name>] is the unit itself. *)
Theorem resolve_all_names_round_trip (cogs : list string) (w : World) :
  (forall n, In ("migrate_" ++ n)%string (map fst data_migrators) ->
     occurs "migrate_" n = false) ->
  In "all"%string cogs ->
  exists to_run,
    resolve cogs w = mkRes (Ok (Some to_run)) w []
    /\ Forall (fun u => getattr data_migrators ("migrate_" ++ snd u)%string
                        = Ok (fst u)) to_run.
Proof.
  intros Hnames Hall.
  assert (Hex : existsb (fun n => String.eqb n "all") cogs = true).
  { apply existsb_exists. exists "all"%string. split; [exact Hall | reflexivity]. }
  set (attrs := filter (fun attr => pystr.startswith attr "migrate_")
                       (dir data_migrators)).
  assert (Hattrs : forall a, In a attrs ->
            In a (map fst data_migrators) /\ pystr.startswith a "migrate_" = true).
  { intros a Ha. apply filter_In in Ha. destruct Ha as [Ha Hp]. split; [|exact Hp].
    apply (Permutation_in a (sorted_Permutation (map fst data_migrators))), Ha. }
  destruct (resolve_attrs_declared attrs w) as [to_run [Hrun Hunits]].
  { intros a Ha. apply Hattrs, Ha. }
  exists to_run. split.
  - unfold resolve. rewrite Hex. fold attrs.
    rewrite (bind_ok _ _ _ _ _ _ Hrun). reflexivity.
  - clear Hrun. induction Hunits as [|attr u attrs' to_run' [Hget Hname] Hrest IH].
    + constructor.
    + constructor.
      * destruct (Hattrs attr (or_introl eq_refl)) as [Hin Hp].
        destruct (startswith_split attr "migrate_" Hp) as [n ->].
        rewrite Hname.
        rewrite (replace_leading "migrate_" "" n) by
          (discriminate || exact (Hnames n Hin)).
        exact Hget.
      * apply IH. intros a Ha. apply Hattrs. right. exact Ha.
Qed.


(** *** Further properties of [dropdb] *)

Lemma unlink_or_warn_exact (p : pathlib.PurePath) (warning : string) (w : World) :
  unlink_or_warn p warning w
  = mkRes (Ok tt)
          (mkWorld (w_db w) (snd (path_unlink p (w_fs w))) (w_proc w))
          (Unlink (pathlib.str p)
           :: match fst (path_unlink p (w_fs w)) with
              | Ok _ => []
              | Raise _ => [Echo false warning]
              end).
Proof.
  unfold unlink_or_warn, unlink, try_except_else, call, on_fs.
  destruct (path_unlink p (w_fs w)) as [[[]|e] f]; reflexivity.
Qed.

Lemma dropdb_store_trace (migration current : pathlib.PurePath) (name : string)
  (w : World) (em ec : bool) :
  checks_return migration current (w_fs w) em ec ->
  trace (dropdb_store migration current name w)
  = (Exists (pathlib.str migration)
     :: if em then [Exists (pathlib.str current)] else [])
    ++ (if negb (em && ec)
        then [Echo false "warning: could not find the appropriate files."]
        else [])
    ++ (Unlink (pathlib.str migration)
        :: match fst (path_unlink migration (w_fs w)) with
           | Ok _ => []
           | Raise _ => [Echo false "warning: could not delete migration file"]
           end)
    ++ (Unlink (pathlib.str current)
        :: match fst (path_unlink current (snd (path_unlink migration (w_fs w)))) with
           | Ok _ => []
           | Raise _ => [Echo false "warning: could not delete current migration file"]
           end)
    ++ [Echo false ("successfully removed " ++ name ++ " database")%string].
Proof.
  intros Hch. unfold dropdb_store.
  rewrite (bind_ok _ _ _ _ _ _ (files_missing_returns migration current w em ec Hch)).
  cbn [trace]. f_equal.
  assert (Hwarn : (if negb (em && ec)
                   then echo "warning: could not find the appropriate files."
                   else ret tt) w
                  = mkRes (Ok tt) w
                      (if negb (em && ec)
                       then [Echo false "warning: could not find the appropriate files."]
                       else [])).
  { destruct (negb _); reflexivity. }
  rewrite (bind_ok _ _ _ _ _ _ Hwarn). cbn [trace]. f_equal.
  rewrite (bind_ok _ _ _ _ _ _ (unlink_or_warn_exact migration _ w)).
  cbn [trace]. f_equal.
  rewrite (bind_ok _ _ _ _ _ _ (unlink_or_warn_exact current _ _)).
  reflexivity.
Qed.

(** X13: in the store phase of a drop, once the existence checks of line
    138 have returned ([em] for the history file and, when that one
    exists, [ec] for the current file), each warning has its one cause: the
    files are reported as not found exactly when one of the checks answered
    no, and each file is reported as not deleted exactly when its own
    [unlink] raised; the second [unlink] is attempted whatever the first
    did. *)
Theorem dropdb_store_warnings (migration current : pathlib.PurePath)
  (name : string) (w : World) (em ec : bool) :
  checks_return migration current (w_fs w) em ec ->
  (In (Echo false "warning: could not find the appropriate files.")
      (trace (dropdb_store migration current name w))
   <-> em = false \/ ec = false)
  /\ (In (Echo false "warning: could not delete migration file")
         (trace (dropdb_store migration current name w))
      <-> exists e, fst (path_unlink migration (w_fs w)) = Raise e)
  /\ (In (Echo false "warning: could not delete current migration file")
         (trace (dropdb_store migration current name w))
      <-> exists e, fst (path_unlink current (snd (path_unlink migration (w_fs w))))
                    = Raise e)
  /\ In (Unlink (pathlib.str current)) (trace (dropdb_store migration current name w)).
Proof.
  intros Hch. rewrite (dropdb_store_trace migration current name w em ec Hch).
  clear Hch.
  destruct em; destruct ec;
    destruct (fst (path_unlink migration (w_fs w))) as [[]|e1] eqn:H1;
    destruct (fst (path_unlink current (snd (path_unlink migration (w_fs w)))))
      as [[]|e2] eqn:H2;
    cbn [negb andb app In];
    (split; [|split; [|split]]);
    try (split; [intros Hin | intros Hex]);
    try (repeat (destruct Hin as [Hin|Hin]; try discriminate Hin); try contradiction);
    try (destruct Hex as [Hex|Hex]; discriminate Hex);
    try (destruct Hex as [e' Hex]; discriminate Hex);
    try (left; reflexivity); try (right; reflexivity);
    try (eexists; reflexivity);
    try tauto.
Qed.


(** X14: a name made of slashes only is refused before the operator is
    asked anything: [with_suffix] raises [ValueError] for the empty final
    component, and the command ends there with nothing done. *)
Theorem dropdb_root_name (name : string) (quiet : bool) (w : World) :
  name <> ""%string -> pystr.lstrip "/" name = ""%string ->
  dropdb name quiet w = mkRes (Raise (ValueError "has an empty name")) w [].
Proof.
  intros Hne Hstrip. unfold dropdb.
  assert (Hpaths : of_result (dropdb_paths name) w
                   = mkRes (Raise (ValueError "has an empty name")) w []).
  { unfold of_result. rewrite (dropdb_paths_root_only name Hne Hstrip). reflexivity. }
  rewrite (bind_raise _ _ _ _ _ _ Hpaths). reflexivity.
Qed.

Lemma remove_database_done (name : string) (w : World) (d1 d2 : DB) (r : result unit)
  (d3 : DB) :
  asyncpg_connect (w_db w) = (Ok tt, d1) ->
  con_execute (drop_table name) d1 = (Ok tt, d2) ->
  con_close d2 = (r, d3) ->
  remove_database name w
  = mkRes r (mkWorld d3 (w_fs w) (w_proc w))
          [Connect; Execute (drop_table name); Close].
Proof.
  intros Hc Hx Hcl. unfold remove_database.
  rewrite (try_ok _ _ _ _ _ _ _ _ (call_run _ _ _ _ _ (on_db_run _ _ _ _ Hc))).
  assert (Hrun : call (Execute (drop_table name)) (on_db (con_execute (drop_table name)))
                   (mkWorld d1 (w_fs w) (w_proc w))
                 = mkRes (Ok tt) (mkWorld d2 (w_fs w) (w_proc w))
                         [Execute (drop_table name)]).
  { apply call_run. apply (on_db_run _ (mkWorld d1 (w_fs w) (w_proc w))). exact Hx. }
  rewrite (bind_ok _ _ _ _ _ _ Hrun).
  assert (Hclose : call Close (on_db con_close) (mkWorld d2 (w_fs w) (w_proc w))
                   = mkRes r (mkWorld d3 (w_fs w) (w_proc w)) [Close]).
  { apply call_run. apply (on_db_run _ (mkWorld d2 (w_fs w) (w_proc w))). exact Hcl. }
  rewrite Hclose. reflexivity.
Qed.

(** X15: a drop in which every step succeeds: the statement is sent and
    the connection closed, both files are found and unlinked, nothing is
    printed but the final line, and the world holds what the database and
    the two [unlink]s left. *)
Theorem dropdb_complete (name : string) (quiet : bool) (w : World)
  (migration current : pathlib.PurePath) (p1 : PROC) (d1 d2 d3 : DB) (f1 f2 : FS) :
  dropdb_paths name = Ok (migration, current) ->
  click_confirm confirm_text (w_proc w) = (true, p1) ->
  asyncpg_connect (w_db w) = (Ok tt, d1) ->
  con_execute (drop_table name) d1 = (Ok tt, d2) ->
  con_close d2 = (Ok tt, d3) ->
  path_exists migration (w_fs w) = Ok true ->
  path_exists current (w_fs w) = Ok true ->
  path_unlink migration (w_fs w) = (Ok tt, f1) ->
  path_unlink current f1 = (Ok tt, f2) ->
  dropdb name quiet w
  = mkRes (Ok tt) (mkWorld d3 f2 p1)
      [Confirm confirm_text true; Connect; Execute (drop_table name); Close;
       Exists (pathlib.str migration); Exists (pathlib.str current);
       Unlink (pathlib.str migration); Unlink (pathlib.str current);
       Echo false ("successfully removed " ++ name ++ " database")%string].
Proof.
  intros Hp Hc Hcon Hx Hcl Hem Hec Hum Huc.
  rewrite (dropdb_confirmed name quiet w migration current p1 Hp Hc).
  rewrite (try_ok _ _ _ _ _ _ _ _
             (remove_database_done name (mkWorld (w_db w) (w_fs w) p1)
                d1 d2 (Ok tt) d3 Hcon Hx Hcl)).
  cbn [w_db w_fs w_proc].
  set (w2 := mkWorld d3 (w_fs w) p1).
  assert (Hstore : dropdb_store migration current name w2
                   = mkRes (Ok tt) (mkWorld d3 f2 p1)
                       [Exists (pathlib.str migration); Exists (pathlib.str current);
                        Unlink (pathlib.str migration); Unlink (pathlib.str current);
                        Echo false ("successfully removed " ++ name ++ " database")%string]).
  { assert (Hmiss : files_missing migration current w2
                    = mkRes (Ok false) w2
                        [Exists (pathlib.str migration); Exists (pathlib.str current)]).
    { apply (files_missing_returns migration current w2 true true).
      split; [exact Hem | intros _; exact Hec]. }
    assert (Hu1 : unlink_or_warn migration "warning: could not delete migration file" w2
                  = mkRes (Ok tt) (mkWorld d3 f1 p1) [Unlink (pathlib.str migration)]).
    { rewrite unlink_or_warn_exact. unfold w2. cbn [w_fs w_db w_proc]. rewrite Hum.
      reflexivity. }
    assert (Hu2 : unlink_or_warn current
                    "warning: could not delete current migration file"
                    (mkWorld d3 f1 p1)
                  = mkRes (Ok tt) (mkWorld d3 f2 p1) [Unlink (pathlib.str current)]).
    { rewrite unlink_or_warn_exact. cbn [w_fs w_db w_proc]. rewrite Huc.
      reflexivity. }
    assert (Hret : ret tt w2 = mkRes (Ok tt) w2 []) by reflexivity.
    unfold dropdb_store.
    rewrite (bind_ok _ _ _ _ _ _ Hmiss), (bind_ok _ _ _ _ _ _ Hret),
      (bind_ok _ _ _ _ _ _ Hu1), (bind_ok _ _ _ _ _ _ Hu2).
    reflexivity. }
  rewrite Hstore. reflexivity.
Qed.

(** X16: when the table has been dropped and closing the connection then
    raises, [dropdb] reports that it could not delete the database and
    returns: the live table is gone while the two files of the store are
    left in place. *)
Theorem dropdb_close_failure (name : string) (quiet : bool) (w : World)
  (migration current : pathlib.PurePath) (p1 : PROC) (d1 d2 d3 : DB) (e : exn) :
  dropdb_paths name = Ok (migration, current) ->
  click_confirm confirm_text (w_proc w) = (true, p1) ->
  asyncpg_connect (w_db w) = (Ok tt, d1) ->
  con_execute (drop_table name) d1 = (Ok tt, d2) ->
  con_close d2 = (Raise e, d3) ->
  is_Exception e = true ->
  dropdb name quiet w
  = mkRes (Ok tt) (mkWorld d3 (w_fs w) p1)
      [Confirm confirm_text true; Connect; Execute (drop_table name); Close;
       Echo true ("could not delete the database"
                  ++ pystr.nl ++ format_exc e)%string].
Proof.
  intros Hp Hc Hcon Hx Hcl He.
  rewrite (dropdb_confirmed name quiet w migration current p1 Hp Hc).
  rewrite (try_caught _ _ _ _ _ _ _ _
             (remove_database_done name (mkWorld (w_db w) (w_fs w) p1)
                d1 d2 (Raise e) d3 Hcon Hx Hcl) He).
  reflexivity.
Qed.

End Properties.


(** ** Launching the bot: properties *)

Lemma remove_first_head (h : nat) (l : list nat) :
  logging.remove_first h (h :: l) = l.
Proof. cbn. rewrite Nat.eqb_refl. reflexivity. Qed.

Lemma close_and_remove_head (r : logging.Registry) (h : nat) (l : list nat) :
  logging.root r = h :: l ->
  logging.root (close_and_remove r h) = l.
Proof.
  intros Hroot. unfold close_and_remove, logging.removeHandler, logging.close.
  cbn [logging.root]. rewrite Hroot. cbn [existsb]. rewrite Nat.eqb_refl.
  cbn [orb logging.root]. apply remove_first_head.
Qed.

Lemma close_and_remove_closed (r : logging.Registry) (h x : nat) :
  x = h \/ In x (logging.closed r) -> In x (logging.closed (close_and_remove r h)).
Proof.
  intros Hx. unfold close_and_remove, logging.removeHandler, logging.close.
  cbn [logging.root logging.closed].
  destruct (existsb (Nat.eqb h) (logging.root r)); cbn [logging.closed];
    destruct Hx as [-> | Hx]; [left | right | left | right]; auto.
Qed.

Lemma exit_loop (l : list nat) :
  forall r, logging.root r = l ->
    logging.root (fold_left close_and_remove l r) = []
    /\ forall x, In x l \/ In x (logging.closed r) ->
         In x (logging.closed (fold_left close_and_remove l r)).
Proof.
  induction l as [|h l IH]; intros r Hroot; cbn [fold_left].
  - split; [exact Hroot|]. intros x [[]|Hx]. exact Hx.
  - destruct (IH (close_and_remove r h) (close_and_remove_head r h l Hroot))
      as [Hempty Hclosed].
    split; [exact Hempty|].
    intros x [[<-|Hx]|Hx]; apply Hclosed.
    + right. apply close_and_remove_closed. left. reflexivity.
    + left. exact Hx.
    + right. apply close_and_remove_closed. right. exact Hx.
Qed.

Lemma setup_logging_exit_clears (r : logging.Registry) :
  logging.root (setup_logging_exit r) = []
  /\ forall x, In x (logging.root r) -> In x (logging.closed (setup_logging_exit r)).
Proof.
  destruct (exit_loop (logging.root r) r eq_refl) as [Hempty Hclosed].
  split; [exact Hempty|]. intros x Hx. apply Hclosed. left. exact Hx.
Qed.

Section BotProperties.
Context `{Bot}.

(** X17: after [with setup_logging()] the root logger has no handler
    left, whether the log file could be opened or not and whatever the
    body did or raised. *)
Theorem setup_logging_leaves_no_handler {A} (body : Process -> Outcome A)
  (p : Process) :
  logging.root (p_logging (o_proc (setup_logging body p))) = [].
Proof.
  unfold setup_logging.
  destruct (open_log "rdanny.log" (w_fs (p_world p))) as [[[]|e] fs];
    cbn [o_proc p_logging]; apply setup_logging_exit_clears.
Qed.

(** X18: when the log file cannot be opened, the body of the [with] does
    not run and the failure goes on to the caller; the [finally] block has
    run all the same, so the handlers that were on the root logger before
    are closed and removed. *)
Theorem setup_logging_open_failure {A} (body : Process -> Outcome A)
  (p : Process) (e : exn) (fs : FS) :
  open_log "rdanny.log" (w_fs (p_world p)) = (Raise e, fs) ->
  o_res (setup_logging body p) = Raise e
  /\ o_trace (setup_logging body p) = [OpenLog "rdanny.log"]
  /\ logging.root (p_logging (o_proc (setup_logging body p))) = []
  /\ forall h, In h (logging.root (p_logging p)) ->
       In h (logging.closed (p_logging (o_proc (setup_logging body p)))).
Proof.
  intros Hopen. unfold setup_logging. rewrite Hopen.
  cbn [o_res o_trace o_proc p_logging].
  destruct (setup_logging_exit_clears (setup_logging_levels (p_logging p)))
    as [Hempty Hclosed].
  split; [reflexivity|]. split; [reflexivity|]. split; [exact Hempty|].
  intros h Hh. apply Hclosed. exact Hh.
Qed.

(** The handler of the log file is on the root logger when the body
    starts, after the handlers that were there. *)
Lemma setup_logging_handler_root (r : logging.Registry) :
  (forall h, In h (logging.root r) -> In h (logging.root (setup_logging_handler r)))
  /\ (~ In (logging.next r) (logging.root r) ->
      logging.root (setup_logging_handler r) = logging.root r ++ [logging.next r]).
Proof.
  unfold setup_logging_handler, logging.newHandler, logging.addHandler,
    logging.setFormatter.
  cbn [logging.root logging.next].
  destruct (existsb (Nat.eqb (logging.next r)) (logging.root r)) eqn:E;
    cbn [logging.root].
  - split; [auto|]. intros Hfresh.
    apply existsb_exists in E. destruct E as [x [Hx Heq]].
    apply Nat.eqb_eq in Heq. subst x. contradiction.
  - split; [|reflexivity]. intros h Hh. apply in_or_app. left. exact Hh.
Qed.

(** X19: [main] without a subcommand, when the pool cannot be set up:
    the failure is printed on stderr and handed to the log, the bot is
    neither built nor run, [main] returns normally, and the handlers of
    the root logger, the one of the log file among them, are closed and
    removed. *)
Theorem main_pool_failure (p : Process) (fs : FS) (e : exn) (w' : World) :
  open_log "rdanny.log" (w_fs (p_world p)) = (Ok tt, fs) ->
  Table_create_pool_timeout 60
    (mkWorld (w_db (p_world p)) fs (w_proc (p_world p))) = (Raise e, w') ->
  is_Exception e = true ->
  ~ In (logging.next (p_logging p)) (logging.root (p_logging p)) ->
  o_res (main None p) = Ok tt
  /\ o_trace (main None p)
     = [OpenLog "rdanny.log"; CreatePoolTimeout 60;
        Cmd (Echo true "Could not set up PostgreSQL. Exiting.");
        LogException "Could not set up PostgreSQL. Exiting." (format_exc e)]
  /\ p_world (o_proc (main None p)) = w'
  /\ logging.root (p_logging (o_proc (main None p))) = []
  /\ forall h, In h (logging.root (p_logging p)) \/ h = logging.next (p_logging p) ->
       In h (logging.closed (p_logging (o_proc (main None p)))).
Proof.
  intros Hopen Hpool He Hfresh. unfold main, setup_logging. rewrite Hopen.
  unfold run. cbn [p_world p_logging]. rewrite Hpool, He.
  cbn [o_res o_trace o_proc p_world p_logging].
  set (r := setup_logging_handler (setup_logging_levels (p_logging p))).
  destruct (setup_logging_exit_clears r) as [Hempty Hclosed].
  destruct (setup_logging_handler_root (setup_logging_levels (p_logging p)))
    as [_ Hroot].
  specialize (Hroot Hfresh). fold r in Hroot.
  split; [reflexivity|]. split; [reflexivity|]. split; [reflexivity|].
  split; [exact Hempty|].
  intros h Hh. apply Hclosed. rewrite Hroot. apply in_or_app.
  destruct Hh as [Hh | ->]; [left; exact Hh | right; left; reflexivity].
Qed.

(** X20: [main] without a subcommand, when the pool is set up and the bot
    is built: what [bot.run()] returns or raises is what [main] returns or
    raises, and every handler on the root logger when the bot stops, those
    the bot added included, is closed and removed. *)
Theorem main_runs_bot (p p1 p2 : Process) (fs : FS) (w' : World) (r : result unit) :
  open_log "rdanny.log" (w_fs (p_world p)) = (Ok tt, fs) ->
  Table_create_pool_timeout 60
    (mkWorld (w_db (p_world p)) fs (w_proc (p_world p))) = (Ok tt, w') ->
  RoboDanny (mkProcess w' (setup_logging_handler (setup_logging_levels (p_logging p))))
  = (Ok tt, p1) ->
  bot_run p1 = (r, p2) ->
  o_res (main None p) = r
  /\ o_trace (main None p) = [OpenLog "rdanny.log"; CreatePoolTimeout 60; NewBot; BotRun]
  /\ p_world (o_proc (main None p)) = p_world p2
  /\ logging.root (p_logging (o_proc (main None p))) = []
  /\ forall h, In h (logging.root (p_logging p2)) ->
       In h (logging.closed (p_logging (o_proc (main None p)))).
Proof.
  intros Hopen Hpool Hbot Hrun. unfold main, setup_logging. rewrite Hopen.
  unfold run. cbn [p_world p_logging]. rewrite Hpool, Hbot, Hrun.
  cbn [o_res o_trace o_proc p_world p_logging].
  destruct (setup_logging_exit_clears (p_logging p2)) as [Hempty Hclosed].
  split; [reflexivity|]. split; [reflexivity|]. split; [reflexivity|].
  split; [exact Hempty | exact Hclosed].
Qed.

End BotProperties.

(** ** Scenarios on the concrete world *)

Section Scenarios.
#[local] Existing Instance sim_outside.
#[local] Existing Instance sim_env.

(** C1, as stated, fails when the list also holds ["all"]: the names are
    then not looked up at all.  With [missing_unit] unregistered, the
    request [all, missing_unit] creates the pool, opens the session and
    runs units. *)
Lemma convertjson_all_with_unknown_counterexample :
  In "missing_unit"%string ["all"%string; "missing_unit"%string]
  /\ registered "missing_unit" = false
  /\ In CreatePool
        (trace (convertjson ["all"%string; "missing_unit"%string] (sim_world true true [])))
  /\ In ClientStart
        (trace (convertjson ["all"%string; "missing_unit"%string] (sim_world true true [])))
  /\ In (Migrate "migrate_api")
        (trace (convertjson ["all"%string; "missing_unit"%string] (sim_world true true []))).
Proof.
  split; [right; left; reflexivity|]. split; [reflexivity|].
  vm_compute. tauto.
Qed.

(** The scenario of the specification: [profiles] is registered,
    [missing_unit] is not. *)
Lemma convertjson_unknown_cog_witness :
  exists cog,
    In cog ["profiles"%string; "missing_unit"%string] /\ registered cog = false
    /\ convertjson ["profiles"%string; "missing_unit"%string] (sim_world true true [])
       = mkRes (Ok tt) (sim_world true true [])
           [Echo true ("invalid cog name given, " ++ cog ++ ".")%string].
Proof.
  apply (convertjson_unknown_cog ["profiles"%string; "missing_unit"%string]).
  - intros [Heq|[Heq|[]]]; discriminate.
  - exists "missing_unit"%string. split; [right; left; reflexivity | reflexivity].
Defined.

(** Units [tags, mod, api] where [mod] fails: [api] is never started and
    the rows written by [tags] are still there. *)
Lemma convertjson_halts_on_failure_witness :
  exists w4 tr,
    convertjson ["tags"%string; "mod"%string; "api"%string] (sim_world true true [])
    = mkRes (Ok tt) w4 tr
    /\ In (Migrate "migrate_mod") tr
    /\ ~ In (Migrate "migrate_api") tr
    /\ pg_rows (w_db w4) = ["tags rows"%string].
Proof.
  eexists. eexists. split.
  - eapply (convertjson_halts_on_failure
              ["tags"%string; "mod"%string; "api"%string]
              [(sim_migrate_tags, "tags"%string)] [(sim_migrate_api, "api"%string)]
              sim_migrate_mod "mod").
    + reflexivity.
    + reflexivity.
    + econstructor; [reflexivity | constructor].
    + reflexivity.
    + reflexivity.
  - vm_compute. split; [tauto|]. split; [|reflexivity].
    intros Hin. repeat (destruct Hin as [Heq|Hin]; [discriminate|]). exact Hin.
Defined.

(** C3, as stated, fails: in a run where everything succeeds the session
    with the external service is opened, and over, before the first step
    of the schema phase. *)
Lemma convertjson_schema_before_session_counterexample :
  ~ in_phase_order phase_claimed
      (trace (convertjson ["tags"%string] (sim_world true true []))).
Proof.
  intros Horder.
  assert (Hle : 2 <= 1).
  { apply (Horder [CreatePool] ClientStart _ TableCreatePool 2 1 eq_refl).
    - right. left. reflexivity.
    - reflexivity.
    - reflexivity. }
  lia.
Qed.

Lemma convertjson_phase_order_witness :
  exists rest,
    trace (convertjson ["tags"%string] (sim_world true true []))
    = [] ++ [CreatePool; ClientStart;
             Echo false "successfully booted up bot R. Danny#6348 (ID: 80528701850124288)"]
         ++ trace (initdb ["cogs.tags"%string] false (sim_world true true []))
         ++ rest.
Proof.
  apply (proj2 (convertjson_phase_order ["tags"%string] (sim_world true true []))
           [(sim_migrate_tags, "tags"%string)] (sim_world true true []) []
           (sim_world true true []) ("R. Danny#6348"%string, "80528701850124288"%string)
           (sim_world true true [])); reflexivity.
Defined.

(** [initdb] on [cogs.tags] and [cogs.api]: the DDL of [tag_lookup] is
    rejected, and [rtfm], registered after it, is still created: it is
    live in the end, beside [tags], and its two files are written. *)
Lemma initdb_failure_isolated_witness :
  exists w3 tr3,
    (initdb ["cogs.tags"%string; "cogs.api"%string] false (sim_world true true [])
     = mkRes (Ok tt) w3
         (TableCreatePool
          :: [ImportModule "cogs.tags"; ImportModule "cogs.api"]
          ++ [TableCreate "tags" true;
              Echo false "[cogs.tags] Processing creation or migration for tags complete."]
          ++ [TableCreate "tag_lookup" true;
              Echo true ("Could not create tag_lookup." ++ pystr.nl
                         ++ "asyncpg.exceptions.DatatypeMismatchError")%string]
          ++ tr3)
     /\ tables_processed true [sim_table_rtfm]
          (mkWorld (mkPg true ["tags"%string] [])
             ["migrations/tags.json"%string; "migrations/current-tags.json"%string]
             (mkProc true ["cogs.tags"%string; "cogs.api"%string]))
          w3 tr3
     /\ created tr3 = ["rtfm"%string])
    /\ pg_tables (w_db w3) = ["rtfm"%string; "tags"%string]
    /\ w_fs w3 = ["migrations/rtfm.json"%string; "migrations/current-rtfm.json"%string;
                  "migrations/tags.json"%string; "migrations/current-tags.json"%string].
Proof.
  assert (Hpre : tables_processed true [sim_table_tags]
                   (mkWorld (mkPg true [] [])
                      ["migrations/tags.json"%string; "migrations/current-tags.json"%string]
                      (mkProc true ["cogs.tags"%string; "cogs.api"%string]))
                   (mkWorld (mkPg true ["tags"%string] [])
                      ["migrations/tags.json"%string; "migrations/current-tags.json"%string]
                      (mkProc true ["cogs.tags"%string; "cogs.api"%string]))
                   [TableCreate "tags" true;
                    Echo false
                      "[cogs.tags] Processing creation or migration for tags complete."]).
  { eapply (processed_created true sim_table_tags []); [reflexivity | constructor]. }
  set (wi := @mkWorld sim_outside (mkPg true [] [])
               ["migrations/tags.json"%string; "migrations/current-tags.json"%string]
               (mkProc true ["cogs.tags"%string; "cogs.api"%string])) in *.
  set (w1 := @mkWorld sim_outside (mkPg true ["tags"%string] [])
               ["migrations/tags.json"%string; "migrations/current-tags.json"%string]
               (mkProc true ["cogs.tags"%string; "cogs.api"%string])) in *.
  assert (Hpool : Table_create_pool (sim_world true true [])
                  = (Ok tt, sim_world true true [])) by reflexivity.
  assert (Himp : for_in (initdb_extensions ["cogs.tags"%string; "cogs.api"%string])
                   initdb_import (sim_world true true [])
                 = mkRes (Ok tt) wi [ImportModule "cogs.tags"; ImportModule "cogs.api"])
    by reflexivity.
  assert (Hall : all_tables (w_proc wi)
                 = [sim_table_tags] ++ sim_table_tag_lookup :: [sim_table_rtfm])
    by reflexivity.
  assert (Hfail : table_create sim_table_tag_lookup (negb false) w1
                  = (Raise (Error "asyncpg.exceptions.DatatypeMismatchError"), w1))
    by reflexivity.
  destruct (initdb_failure_isolated
              ["cogs.tags"%string; "cogs.api"%string] false
              [sim_table_tags] [sim_table_rtfm] sim_table_tag_lookup
              (Error "asyncpg.exceptions.DatatypeMismatchError")
              (sim_world true true []) (sim_world true true [])
              wi w1 w1
              [ImportModule "cogs.tags"; ImportModule "cogs.api"]
              _ Hpool Himp Hall Hpre Hfail eq_refl)
    as [w3 [tr3 [Hrun [Hproc Hcr]]]].
  { intros t' w' e' [<-|[]] Hraise. cbn in Hraise. unfold sim_create in Hraise.
    destruct (pg_up (w_db w')); cbn in Hraise; [discriminate|].
    injection Hraise as <-. reflexivity. }
  exists w3, tr3. split; [split; [exact Hrun | split; [exact Hproc | exact Hcr]]|].
  apply (f_equal world) in Hrun. cbn [world] in Hrun. rewrite <- Hrun.
  split; reflexivity.
Defined.

(** The operator declines: nothing is dropped, nothing is unlinked. *)
Lemma dropdb_needs_confirmation_witness :
  (exists e, res (dropdb "tags" false (sim_world true false ["tags"%string])) = Raise e)
  /\ w_db (world (dropdb "tags" false (sim_world true false ["tags"%string])))
     = mkPg true ["tags"%string] []
  /\ w_fs (world (dropdb "tags" false (sim_world true false ["tags"%string])))
     = ["migrations/tags.json"%string; "migrations/current-tags.json"%string]
  /\ forall ev, In ev (trace (dropdb "tags" false (sim_world true false ["tags"%string]))) ->
       destructive ev = false.
Proof.
  apply (proj2 (dropdb_needs_confirmation "tags" false (sim_world true false ["tags"%string]))).
  reflexivity.
Defined.



(** C7, as stated, fails: [data_migrators] declares [migrate_tags],
    [migrate_mod], [migrate_api], [migrate_profiles] in that order, and
    ["all"] resolves to [api], [mod], [profiles], [tags]. *)
Lemma resolve_all_declaration_order_counterexample :
  declared_units sim_migrators
  = ["migrate_tags"%string; "migrate_mod"%string; "migrate_api"%string;
     "migrate_profiles"%string]
  /\ exists to_run,
       res (resolve ["all"%string] (sim_world true true [])) = Ok (Some to_run)
       /\ map (fun u => mig_name (fst u)) to_run
          = ["migrate_api"%string; "migrate_mod"%string; "migrate_profiles"%string;
             "migrate_tags"%string]
       /\ map (fun u => mig_name (fst u)) to_run <> declared_units sim_migrators.
Proof.
  split; [reflexivity|].
  exists [(sim_migrate_api, "api"%string); (sim_migrate_mod, "mod"%string);
          (sim_migrate_profiles, "profiles"%string); (sim_migrate_tags, "tags"%string)].
  split; [reflexivity|]. split; [reflexivity|]. discriminate.
Qed.

Lemma resolve_all_sorted_witness :
  exists attrs to_run,
    resolve ["all"%string] (sim_world true true [])
    = mkRes (Ok (Some to_run)) (sim_world true true []) []
    /\ Forall2 unit_of attrs to_run
    /\ Permutation attrs (declared_units data_migrators)
    /\ StronglySorted str_le attrs.
Proof.
  apply (resolve_all_sorted ["all"%string] (sim_world true true [])).
  left. reflexivity.
Defined.

(** The statement is rejected: the files are not touched. *)
Lemma dropdb_drop_failure_keeps_store_witness :
  dropdb "tags" false (sim_world true true [])
  = mkRes (Ok tt) (mkWorld (mkPg true [] []) (w_fs (sim_world true true []))
                           (mkProc true []))
      [Confirm confirm_text true; Connect; Execute (drop_table "tags");
       Echo true ("could not delete the database" ++ pystr.nl
                  ++ format_exc (Error "asyncpg.exceptions.UndefinedTableError"))%string].
Proof.
  assert (Hp : dropdb_paths "tags"
               = Ok (pathlib.mkPath "" ["migrations"%string; "tags.json"%string],
                     pathlib.mkPath "" ["migrations"%string; "current-tags.json"%string]))
    by reflexivity.
  assert (Hc : click_confirm confirm_text (w_proc (sim_world true true []))
               = (true, mkProc true [])) by reflexivity.
  assert (Hcon : asyncpg_connect (w_db (sim_world true true []))
                 = (Ok tt, mkPg true [] [])) by reflexivity.
  assert (Hx : con_execute (drop_table "tags") (mkPg true [] [])
               = (Raise (Error "asyncpg.exceptions.UndefinedTableError"), mkPg true [] []))
    by reflexivity.
  exact (dropdb_drop_failure_keeps_store "tags" false (sim_world true true [])
           _ _ _ _ _ _ Hp Hc Hcon Hx eq_refl).
Defined.

(** The server is down: the table [tags] stays live, its two files are
    gone, and the command reports the removal. *)
Lemma dropdb_connect_failure_purges_store_witness :
  res (dropdb "tags" false (sim_world false true ["tags"%string])) = Ok tt
  /\ w_db (world (dropdb "tags" false (sim_world false true ["tags"%string])))
     = mkPg false ["tags"%string] []
  /\ w_fs (world (dropdb "tags" false (sim_world false true ["tags"%string]))) = []
  /\ exists tr,
       trace (dropdb "tags" false (sim_world false true ["tags"%string]))
       = Confirm confirm_text true :: Connect :: tr
         ++ [Echo false "successfully removed tags database"]
       /\ In (Unlink "migrations/tags.json") tr
       /\ In (Unlink "migrations/current-tags.json") tr
       /\ Forall store_event tr.
Proof.
  assert (Hp : dropdb_paths "tags"
               = Ok (pathlib.mkPath "" ["migrations"%string; "tags.json"%string],
                     pathlib.mkPath "" ["migrations"%string; "current-tags.json"%string]))
    by reflexivity.
  assert (Hc : click_confirm confirm_text (w_proc (sim_world false true ["tags"%string]))
               = (true, mkProc true [])) by reflexivity.
  assert (Hcon : asyncpg_connect (w_db (sim_world false true ["tags"%string]))
                 = (Raise (Error "ConnectionRefusedError"), mkPg false ["tags"%string] []))
    by reflexivity.
  destruct (dropdb_connect_failure_purges_store "tags" false
              (sim_world false true ["tags"%string]) _ _ _ _ _ Hp Hc Hcon)
    as [Hdb [_ [Hstore _]]].
  assert (Hch : checks_return
                  (pathlib.mkPath "" ["migrations"%string; "tags.json"%string])
                  (pathlib.mkPath "" ["migrations"%string; "current-tags.json"%string])
                  (w_fs (sim_world false true ["tags"%string])) true true)
    by (split; [reflexivity | intros _; reflexivity]).
  destruct (Hstore true true Hch) as [Hres [Hfs Htr]].
  split; [exact Hres | split; [exact Hdb | split; [exact Hfs | exact Htr]]].
Defined.

(** C10, as stated, fails: the server is down, the operator confirms, and
    the name has 300 characters.  The failed connection is swallowed, and
    the first existence check of line 138 then raises [OSError], which
    nothing catches: no file is unlinked and no removal is reported. *)
Lemma dropdb_connect_failure_long_name_counterexample :
  String.length sim_long_name = 300
  /\ fst (click_confirm confirm_text (w_proc (sim_world false true [sim_long_name])))
     = true
  /\ fst (asyncpg_connect (w_db (sim_world false true [sim_long_name])))
     = Raise (Error "ConnectionRefusedError")
  /\ dropdb sim_long_name false (sim_world false true [sim_long_name])
     = mkRes (Raise (Error "OSError: [Errno 36] File name too long"))
         (sim_world false true [sim_long_name])
         [Confirm confirm_text true; Connect;
          Exists ("migrations/" ++ sim_long_name ++ ".json")%string]
  /\ (forall p, ~ In (Unlink p)
                   (trace (dropdb sim_long_name false
                             (sim_world false true [sim_long_name]))))
  /\ ~ In (Echo false ("successfully removed " ++ sim_long_name ++ " database")%string)
         (trace (dropdb sim_long_name false (sim_world false true [sim_long_name]))).
Proof.
  assert (Hrun : dropdb sim_long_name false (sim_world false true [sim_long_name])
                 = mkRes (Raise (Error "OSError: [Errno 36] File name too long"))
                     (sim_world false true [sim_long_name])
                     [Confirm confirm_text true; Connect;
                      Exists ("migrations/" ++ sim_long_name ++ ".json")%string])
    by (vm_compute; reflexivity).
  split; [vm_compute; reflexivity|]. split; [reflexivity|]. split; [reflexivity|].
  split; [exact Hrun|]. rewrite Hrun. split.
  - intros p [Hin|[Hin|[Hin|[]]]]; discriminate Hin.
  - intros [Hin|[Hin|[Hin|[]]]]; discriminate Hin.
Qed.


(** The server is down: [initdb] stops at the pool. *)
Lemma initdb_pool_failure_witness :
  initdb ["cogs.tags"%string] false (sim_world false true [])
  = mkRes (Ok tt) (sim_world false true [])
      [TableCreatePool;
       Echo true ("Could not create PostgreSQL connection pool."
                  ++ pystr.nl ++ format_exc (Error "ConnectionRefusedError"))%string].
Proof.
  assert (Hpool : Table_create_pool (sim_world false true [])
                  = (Raise (Error "ConnectionRefusedError"), sim_world false true []))
    by reflexivity.
  exact (initdb_pool_failure ["cogs.tags"%string] false _ _ _ Hpool eq_refl).
Defined.

(** [cogs.nope] does not exist: [cogs.tags] is imported after it and its
    tables are created. *)
Lemma initdb_import_failure_isolated_witness :
  exists wi tri,
    for_in (initdb_extensions ["cogs.nope"%string; "cogs.tags"%string]) initdb_import
      (sim_world true true [])
    = mkRes (Ok tt) wi tri
    /\ imported tri = initdb_extensions ["cogs.nope"%string; "cogs.tags"%string]
    /\ initdb ["cogs.nope"%string; "cogs.tags"%string] true (sim_world true true [])
       = mkRes (res (for_in (all_tables (w_proc wi)) (initdb_table true) wi))
               (world (for_in (all_tables (w_proc wi)) (initdb_table true) wi))
               (TableCreatePool :: tri
                ++ trace (for_in (all_tables (w_proc wi)) (initdb_table true) wi)).
Proof.
  apply (initdb_import_failure_isolated
           ["cogs.nope"%string; "cogs.tags"%string] true
           (sim_world true true []) (sim_world true true [])).
  - reflexivity.
  - intros ext w' e _ Hraise. cbn in Hraise. unfold sim_import in Hraise.
    destruct (mem ext _); cbn in Hraise; [discriminate|].
    injection Hraise as <-. reflexivity.
Defined.

(** A request with a repetition. *)
Lemma resolve_named_witness :
  exists to_run,
    resolve ["tags"%string; "api"%string; "tags"%string] (sim_world true true [])
    = mkRes (Ok (Some to_run)) (sim_world true true []) []
    /\ map snd to_run = ["tags"%string; "api"%string; "tags"%string]
    /\ Forall (fun u => getattr data_migrators ("migrate_" ++ snd u)%string
                        = Ok (fst u)) to_run.
Proof.
  apply (resolve_named ["tags"%string; "api"%string; "tags"%string]).
  - intros [Heq|[Heq|[Heq|[]]]]; discriminate.
  - intros cog [<-|[<-|[<-|[]]]]; reflexivity.
Defined.

(** The server is down: [convertjson] stops at the pool. *)
Lemma convertjson_pool_failure_witness :
  convertjson ["tags"%string] (sim_world false true [])
  = mkRes (Ok tt) (sim_world false true [])
      ([] ++ [CreatePool;
              Echo true ("Could not create PostgreSQL connection pool."
                         ++ pystr.nl ++ format_exc (Error "ConnectionRefusedError"))%string]).
Proof.
  assert (Hres : resolve ["tags"%string] (sim_world false true [])
                 = mkRes (Ok (Some [(sim_migrate_tags, "tags"%string)]))
                         (sim_world false true []) []) by reflexivity.
  assert (Hpool : asyncpg_create_pool (sim_world false true [])
                  = (Raise (Error "ConnectionRefusedError"), sim_world false true []))
    by reflexivity.
  exact (convertjson_pool_failure _ _ _ _ _ _ _ Hres Hpool eq_refl).
Defined.

(** Units [tags] and [api] both complete. *)
Lemma convertjson_all_complete_witness :
  exists w3 tr2,
    convertjson ["tags"%string; "api"%string] (sim_world true true [])
    = mkRes (Ok tt) w3
        ([] ++ tr2
         ++ completed_trace [(sim_migrate_tags, "tags"%string);
                             (sim_migrate_api, "api"%string)])
    /\ pg_rows (w_db w3) = ["rtfm rows"%string; "tags rows"%string].
Proof.
  eexists. eexists. split.
  - eapply (convertjson_all_complete
              ["tags"%string; "api"%string]
              [(sim_migrate_tags, "tags"%string); (sim_migrate_api, "api"%string)]
              (sim_world true true []) (sim_world true true [])).
    + reflexivity.
    + reflexivity.
    + econstructor; [reflexivity|]. econstructor; [reflexivity|]. constructor.
  - reflexivity.
Defined.

(** No name at all: every initial extension is imported, no unit runs. *)
Lemma convertjson_no_cogs_witness :
  convertjson [] (sim_world true true [])
  = mkRes (res (initdb initial_extensions false (sim_world true true [])))
          (world (initdb initial_extensions false (sim_world true true [])))
          ([CreatePool; ClientStart;
            Echo false "successfully booted up bot R. Danny#6348 (ID: 80528701850124288)"]
           ++ trace (initdb initial_extensions false (sim_world true true [])))
  /\ forall n, ~ In (Migrate n) (trace (convertjson [] (sim_world true true []))).
Proof.
  assert (Hpool : asyncpg_create_pool (sim_world true true [])
                  = (Ok tt, sim_world true true [])) by reflexivity.
  assert (Hstart : client_start (sim_world true true [])
                   = (Ok ("R. Danny#6348"%string, "80528701850124288"%string),
                      sim_world true true [])) by reflexivity.
  exact (convertjson_no_cogs _ _ _ _ Hpool Hstart).
Defined.

Lemma resolve_all_names_round_trip_witness :
  exists to_run,
    resolve ["all"%string] (sim_world true true [])
    = mkRes (Ok (Some to_run)) (sim_world true true []) []
    /\ Forall (fun u => getattr data_migrators ("migrate_" ++ snd u)%string
                        = Ok (fst u)) to_run.
Proof.
  apply (resolve_all_names_round_trip ["all"%string]).
  - intros n [Heq|[Heq|[Heq|[Heq|[]]]]]; injection Heq as <-; reflexivity.
  - left. reflexivity.
Defined.

(** The name [//]. *)
Lemma dropdb_root_name_witness :
  dropdb "//" false (sim_world true true ["tags"%string])
  = mkRes (Raise (ValueError "has an empty name")) (sim_world true true ["tags"%string]) [].
Proof.
  apply (dropdb_root_name "//"); [discriminate | reflexivity].
Defined.

(** Only the history file of [tags] is there: the files are reported as
    not found, the history file is unlinked without a word, and the
    [unlink] of the current file is attempted and reported as failed. *)
Lemma dropdb_store_warnings_witness :
  let migration := pathlib.mkPath "" ["migrations"%string; "tags.json"%string] in
  let current := pathlib.mkPath "" ["migrations"%string; "current-tags.json"%string] in
  let w := @mkWorld sim_outside (mkPg false ["tags"%string] [])
             ["migrations/tags.json"%string] (mkProc true []) in
  In (Echo false "warning: could not find the appropriate files.")
     (trace (dropdb_store migration current "tags" w))
  /\ ~ In (Echo false "warning: could not delete migration file")
         (trace (dropdb_store migration current "tags" w))
  /\ In (Echo false "warning: could not delete current migration file")
        (trace (dropdb_store migration current "tags" w))
  /\ In (Unlink "migrations/current-tags.json")
        (trace (dropdb_store migration current "tags" w)).
Proof.
  intros migration current w.
  assert (Hch : checks_return migration current (w_fs w) true false)
    by (split; [reflexivity | intros _; reflexivity]).
  destruct (dropdb_store_warnings migration current "tags" w true false Hch)
    as [Hfind [Hfirst [Hsecond Hunlink]]].
  split; [apply Hfind; right; reflexivity|].
  split; [intros Hin; apply Hfirst in Hin; destruct Hin as [e He]; discriminate He|].
  split; [apply Hsecond; eexists; reflexivity | exact Hunlink].
Defined.

(** The table [tags] is live and both files exist. *)
Lemma dropdb_complete_witness :
  dropdb "tags" false (sim_world true true ["tags"%string])
  = mkRes (Ok tt) (mkWorld (mkPg true [] []) [] (mkProc true []))
      [Confirm confirm_text true; Connect; Execute (drop_table "tags"); Close;
       Exists "migrations/tags.json"; Exists "migrations/current-tags.json";
       Unlink "migrations/tags.json"; Unlink "migrations/current-tags.json";
       Echo false ("successfully removed " ++ "tags" ++ " database")%string].
Proof.
  assert (Hp : dropdb_paths "tags"
               = Ok (pathlib.mkPath "" ["migrations"%string; "tags.json"%string],
                     pathlib.mkPath "" ["migrations"%string; "current-tags.json"%string]))
    by reflexivity.
  assert (Hc : click_confirm confirm_text (w_proc (sim_world true true ["tags"%string]))
               = (true, mkProc true [])) by reflexivity.
  assert (Hcon : asyncpg_connect (w_db (sim_world true true ["tags"%string]))
                 = (Ok tt, mkPg true ["tags"%string] [])) by reflexivity.
  assert (Hx : con_execute (drop_table "tags") (mkPg true ["tags"%string] [])
               = (Ok tt, mkPg true [] [])) by reflexivity.
  assert (Hcl : con_close (mkPg true [] []) = (Ok tt, mkPg true [] [])) by reflexivity.
  assert (Hu1 : path_unlink (pathlib.mkPath "" ["migrations"%string; "tags.json"%string])
                  (w_fs (sim_world true true ["tags"%string]))
                = (Ok tt, ["migrations/current-tags.json"%string])) by reflexivity.
  assert (Hu2 : path_unlink
                  (pathlib.mkPath "" ["migrations"%string; "current-tags.json"%string])
                  ["migrations/current-tags.json"%string]
                = (Ok tt, [])) by reflexivity.
  exact (dropdb_complete "tags" false (sim_world true true ["tags"%string])
           _ _ _ _ _ _ _ _ Hp Hc Hcon Hx Hcl eq_refl eq_refl Hu1 Hu2).
Defined.

End Scenarios.

(** ** Scenarios with a failing collaborator *)

Section ScenarioNoLogin.
#[local] Existing Instance sim_outside.
#[local] Existing Instance sim_env_no_login.

(** The token is refused: the failure leaves [convertjson] unhandled. *)
Lemma convertjson_start_failure_witness :
  convertjson ["tags"%string] (sim_world true true [])
  = mkRes (Raise (Error "discord.errors.LoginFailure")) (sim_world true true [])
          ([] ++ [CreatePool; ClientStart]).
Proof.
  assert (Hres : resolve ["tags"%string] (sim_world true true [])
                 = mkRes (Ok (Some [(sim_migrate_tags, "tags"%string)]))
                         (sim_world true true []) []) by reflexivity.
  assert (Hpool : asyncpg_create_pool (sim_world true true [])
                  = (Ok tt, sim_world true true [])) by reflexivity.
  assert (Hstart : client_start (sim_world true true [])
                   = (Raise (Error "discord.errors.LoginFailure"), sim_world true true []))
    by reflexivity.
  exact (convertjson_start_failure _ _ _ _ _ _ _ _ Hres Hpool Hstart).
Defined.

End ScenarioNoLogin.

Section ScenarioNoTablePool.
#[local] Existing Instance sim_outside.
#[local] Existing Instance sim_env_no_table_pool.


End ScenarioNoTablePool.

Section ScenarioNoClose.
#[local] Existing Instance sim_outside.
#[local] Existing Instance sim_env_no_close.

(** The connection cannot be closed: the table is gone, the files stay. *)
Lemma dropdb_close_failure_witness :
  dropdb "tags" false (sim_world true true ["tags"%string])
  = mkRes (Ok tt)
      (mkWorld (mkPg true [] []) (w_fs (sim_world true true ["tags"%string]))
               (mkProc true []))
      [Confirm confirm_text true; Connect; Execute (drop_table "tags"); Close;
       Echo true ("could not delete the database" ++ pystr.nl
                  ++ format_exc
                       (Error "asyncpg.exceptions.ConnectionDoesNotExistError"))%string].
Proof.
  assert (Hp : dropdb_paths "tags"
               = Ok (pathlib.mkPath "" ["migrations"%string; "tags.json"%string],
                     pathlib.mkPath "" ["migrations"%string; "current-tags.json"%string]))
    by reflexivity.
  assert (Hc : click_confirm confirm_text (w_proc (sim_world true true ["tags"%string]))
               = (true, mkProc true [])) by reflexivity.
  assert (Hcon : asyncpg_connect (w_db (sim_world true true ["tags"%string]))
                 = (Ok tt, mkPg true ["tags"%string] [])) by reflexivity.
  assert (Hx : con_execute (drop_table "tags") (mkPg true ["tags"%string] [])
               = (Ok tt, mkPg true [] [])) by reflexivity.
  assert (Hcl : con_close (mkPg true [] [])
                = (Raise (Error "asyncpg.exceptions.ConnectionDoesNotExistError"),
                   mkPg true [] [])) by reflexivity.
  exact (dropdb_close_failure "tags" false (sim_world true true ["tags"%string])
           _ _ _ _ _ _ _ Hp Hc Hcon Hx Hcl eq_refl).
Defined.

End ScenarioNoClose.

(** ** Scenarios of the bot *)

Section ScenariosBot.
#[local] Existing Instance sim_outside.
#[local] Existing Instance sim_bot.

(** The directory is read-only: the bot is not run and the handler that
    was on the root logger is closed and removed. *)
Lemma setup_logging_open_failure_witness :
  o_res (setup_logging run
           (mkProcess (mkWorld (mkPg true [] []) ["read-only"%string] (mkProc true []))
                      sim_registry))
  = Raise (Error "PermissionError")
  /\ o_trace (setup_logging run
                (mkProcess (mkWorld (mkPg true [] []) ["read-only"%string] (mkProc true []))
                           sim_registry))
     = [OpenLog "rdanny.log"]
  /\ logging.root
       (p_logging
          (o_proc (setup_logging run
                     (mkProcess (mkWorld (mkPg true [] []) ["read-only"%string]
                                         (mkProc true []))
                                sim_registry))))
     = []
  /\ forall h, In h (logging.root sim_registry) ->
       In h (logging.closed
               (p_logging
                  (o_proc (setup_logging run
                             (mkProcess (mkWorld (mkPg true [] []) ["read-only"%string]
                                                 (mkProc true []))
                                        sim_registry))))).
Proof.
  assert (Hopen : open_log "rdanny.log" ["read-only"%string]
                  = (Raise (Error "PermissionError"), ["read-only"%string]))
    by reflexivity.
  exact (setup_logging_open_failure run
           (mkProcess (mkWorld (mkPg true [] []) ["read-only"%string] (mkProc true []))
                      sim_registry) _ _ Hopen).
Defined.

(** The server is down: the bot is not built; handler 0 and the handler of
    the log file, 1, are closed. *)
Lemma main_pool_failure_witness :
  o_res (main None (mkProcess (sim_world false true []) sim_registry)) = Ok tt
  /\ o_trace (main None (mkProcess (sim_world false true []) sim_registry))
     = [OpenLog "rdanny.log"; CreatePoolTimeout 60;
        Cmd (Echo true "Could not set up PostgreSQL. Exiting.");
        LogException "Could not set up PostgreSQL. Exiting."
          (format_exc (Error "ConnectionRefusedError"))]
  /\ p_world (o_proc (main None (mkProcess (sim_world false true []) sim_registry)))
     = mkWorld (mkPg false [] [])
         ["rdanny.log"%string; "migrations/tags.json"%string;
          "migrations/current-tags.json"%string]
         (mkProc true [])
  /\ logging.root
       (p_logging (o_proc (main None (mkProcess (sim_world false true []) sim_registry))))
     = []
  /\ forall h, In h (logging.root sim_registry) \/ h = logging.next sim_registry ->
       In h (logging.closed
               (p_logging
                  (o_proc (main None (mkProcess (sim_world false true []) sim_registry))))).
Proof.
  assert (Hopen : open_log "rdanny.log" (w_fs (sim_world false true []))
                  = (Ok tt, ["rdanny.log"%string; "migrations/tags.json"%string;
                             "migrations/current-tags.json"%string])) by reflexivity.
  assert (Hpool : Table_create_pool_timeout 60
                    (mkWorld (mkPg false [] [])
                       ["rdanny.log"%string; "migrations/tags.json"%string;
                        "migrations/current-tags.json"%string]
                       (mkProc true []))
                  = (Raise (Error "ConnectionRefusedError"),
                     mkWorld (mkPg false [] [])
                       ["rdanny.log"%string; "migrations/tags.json"%string;
                        "migrations/current-tags.json"%string]
                       (mkProc true []))) by reflexivity.
  assert (Hfresh : ~ In (logging.next sim_registry) (logging.root sim_registry)).
  { intros [Heq|[]]. discriminate. }
  exact (main_pool_failure (mkProcess (sim_world false true []) sim_registry)
           _ _ _ Hopen Hpool eq_refl Hfresh).
Defined.

(** The bot runs and stops: the handler it added, 2, is closed with
    handlers 0 and 1. *)
Lemma main_runs_bot_witness :
  o_res (main None (mkProcess (sim_world true true []) sim_registry)) = Ok tt
  /\ o_trace (main None (mkProcess (sim_world true true []) sim_registry))
     = [OpenLog "rdanny.log"; CreatePoolTimeout 60; NewBot; BotRun]
  /\ p_world (o_proc (main None (mkProcess (sim_world true true []) sim_registry)))
     = mkWorld (mkPg true [] [])
         ["rdanny.log"%string; "migrations/tags.json"%string;
          "migrations/current-tags.json"%string]
         (mkProc true [])
  /\ logging.root
       (p_logging (o_proc (main None (mkProcess (sim_world true true []) sim_registry))))
     = []
  /\ forall h, In h [0; 1; 2] ->
       In h (logging.closed
               (p_logging
                  (o_proc (main None (mkProcess (sim_world true true []) sim_registry))))).
Proof.
  assert (Hopen : open_log "rdanny.log" (w_fs (sim_world true true []))
                  = (Ok tt, ["rdanny.log"%string; "migrations/tags.json"%string;
                             "migrations/current-tags.json"%string])) by reflexivity.
  set (w' := @mkWorld sim_outside (mkPg true [] [])
               ["rdanny.log"%string; "migrations/tags.json"%string;
                "migrations/current-tags.json"%string]
               (mkProc true [])).
  assert (Hpool : Table_create_pool_timeout 60 w' = (Ok tt, w')) by reflexivity.
  set (r := setup_logging_handler (setup_logging_levels sim_registry)).
  assert (Hbot : RoboDanny (mkProcess w' r) = (Ok tt, mkProcess w' r)) by reflexivity.
  assert (Hrun : bot_run (mkProcess w' r)
                 = (Ok tt,
                    mkProcess w'
                      (logging.addHandler (logging.next r)
                         (snd (logging.newHandler r))))) by reflexivity.
  exact (main_runs_bot (mkProcess (sim_world true true []) sim_registry)
           _ _ _ _ _ Hopen Hpool Hbot Hrun).
Defined.

End ScenariosBot.
